(** * County Business Patterns: the [Counties] table of [cbp/cbp.py]

    A shallow embedding of [cbp.py] and the properties its specification
    states about it.

    The program is glue over three collaborators that are not part of it:
    the HTTP client ([requests]), the JSON/CSV readers and the table type
    of [pandas].  They appear here as follows.

    - A table ([DataFrame]) is a list of column labels and a list of rows;
      a row carries its index label and a finite map from column label to
      cell.  Cells are Python scalars: [None], a [str] or an [int]; there
      are no floating-point cells, and a column of integers is one of
      64-bit integers.
    - The outside world ([world]) answers a GET request with an HTTP error
      or with the parsed response (a header row and data rows), and
      answers a CSV read with an I/O error or a table.
    - Every table object lives in a store ([heap]); the methods of
      [Counties] take the location of [self] and return the location of
      the table they build, so that what a call leaves untouched can be
      stated.  Network requests, file reads and prints are recorded in a
      [trace]. *)

From stdpp Require Import gmap strings list fin_maps sorting.
From Stdlib Require Import ZArith DecimalString Ascii.

Local Open Scope string_scope.
Local Open Scope Z_scope.

(** ** Python values, exceptions and the execution monad *)

Module Py.

(** Scalars that can sit in a table cell or inside a list argument. *)
Inductive value : Type :=
  | VNone
  | VStr (s : string)
  | VInt (z : Z).

#[export] Instance value_eq_dec : EqDecision value.
Proof. solve_decision. Defined.

#[export] Instance value_inhabited : Inhabited value := populate VNone.

(** Objects that can be passed as an argument: a scalar, a [list] or a
    [set] of scalars. *)
Inductive pyobj : Type :=
  | OVal (v : value)
  | OList (l : list value)
  | OSet (l : list value).

Definition ONone : pyobj := OVal VNone.
Definition OStr (s : string) : pyobj := OVal (VStr s).

(** Truth value of a scalar and of an object ([if x:] / [not x]). *)
Definition truthy_value (v : value) : bool :=
  match v with
  | VNone => false
  | VStr s => negb (String.eqb s "")
  | VInt z => negb (z =? 0)
  end.

Definition truthy (o : pyobj) : bool :=
  match o with
  | OVal v => truthy_value v
  | OList l | OSet l => match l with [] => false | _ => true end
  end.

(** An optional [str] argument whose default is [None]. *)
Definition truthy_opt_str (o : option string) : bool :=
  match o with
  | None => false
  | Some s => negb (String.eqb s "")
  end.

(** An optional [list] argument whose default is [None]. *)
Definition truthy_opt_list {A} (o : option (list A)) : bool :=
  match o with
  | None | Some [] => false
  | Some (_ :: _) => true
  end.

Inductive exn : Type :=
  | ValueError (msg : string)
  | TypeError (msg : string)
  | KeyError (k : value)
  | AttributeError (name : string)
  | IOError (path : string)
  | SystemExit (code : Z).

Inductive result (A : Type) : Type :=
  | Ok (a : A)
  | Raise (e : exn).
Arguments Ok {A} a.
Arguments Raise {A} e.

#[export] Instance result_ret : MRet result := λ A a, Ok a.
#[export] Instance result_bind : MBind result := λ A B k r,
  match r with
  | Ok a => k a
  | Raise e => Raise e
  end.
#[export] Instance result_fmap : FMap result := λ A B f r,
  match r with
  | Ok a => Ok (f a)
  | Raise e => Raise e
  end.

(** [mapM] for [result]: the first exception wins. *)
Fixpoint mapR {A B} (f : A → result B) (l : list A) : result (list B) :=
  match l with
  | [] => Ok []
  | a :: l' =>
      match f a with
      | Ok b => match mapR f l' with
                | Ok bs => Ok (b :: bs)
                | Raise e => Raise e
                end
      | Raise e => Raise e
      end
  end.

(** [str(x)] as used by [str.format]. *)
Definition py_str (v : value) : string :=
  match v with
  | VNone => "None"
  | VStr s => s
  | VInt z => NilZero.string_of_int (Z.to_int z)
  end.

(** The one-character string holding a double quote. *)
Definition dquote : string := String "034"%char EmptyString.

(** [sep.join(l)] *)
Fixpoint join (sep : string) (l : list string) : string :=
  match l with
  | [] => ""
  | [s] => s
  | s :: l' => s ++ sep ++ join sep l'
  end.

(** *** [int(s)] on a [str]: optional surrounding whitespace, an optional
    sign, then at least one decimal digit. *)

Definition is_space (c : ascii) : bool :=
  let n := nat_of_ascii c in
  (Nat.eqb n 32 || (Nat.leb 9 n && Nat.leb n 13))%bool.

Definition digit_of (c : ascii) : option Z :=
  let n := Z.of_nat (nat_of_ascii c) in
  if (48 <=? n) && (n <=? 57) then Some (n - 48) else None.

Fixpoint lstrip (l : list ascii) : list ascii :=
  match l with
  | c :: l' => if is_space c then lstrip l' else l
  | [] => []
  end.

Definition strip (l : list ascii) : list ascii :=
  reverse (lstrip (reverse (lstrip l))).

Fixpoint digits_value (acc : Z) (l : list ascii) : option Z :=
  match l with
  | [] => Some acc
  | c :: l' =>
      match digit_of c with
      | Some d => digits_value (10 * acc + d) l'
      | None => None
      end
  end.

Definition unsigned_of (l : list ascii) : option Z :=
  match l with
  | [] => None
  | _ :: _ => digits_value 0 l
  end.

Definition int_of_str (s : string) : option Z :=
  match strip (String.list_ascii_of_string s) with
  | "-"%char :: l => Z.opp <$> unsigned_of l
  | "+"%char :: l => unsigned_of l
  | l => unsigned_of l
  end.

(** [int(x)] for a scalar. *)
Definition py_int (v : value) : result Z :=
  match v with
  | VInt z => Ok z
  | VStr s =>
      match int_of_str s with
      | Some z => Ok z
      | None => Raise (ValueError ("invalid literal for int() with base 10: " ++ s))
      end
  | VNone =>
      Raise (TypeError "int() argument must be a string or a number, not 'NoneType'")
  end.

(** [sub in s] for strings. *)
Definition str_contains (sub s : string) : bool :=
  match String.index 0 sub s with
  | Some _ => true
  | None => false
  end.

End Py.

Export Py.

(** ** Tables

    What the program uses of [pandas.DataFrame]. *)

Module Pandas.

(** A table: its column labels, and its rows in order, each with its index
    label and its cells.  A label of [columns] with no entry in a row is a
    missing cell, read as [None]. *)
Record DataFrame : Type := {
  columns : list string;
  rows : list (value * gmap string value)
}.

Definition cell (c : string) (r : value * gmap string value) : value :=
  default VNone (r.2 !! c).

(** The cells of column [c], in row order. *)
Definition column (df : DataFrame) (c : string) : list value :=
  cell c <$> rows df.

(** [df.c]: attribute access to a column. *)
Definition getattr (df : DataFrame) (c : string) : result (list value) :=
  if decide (c ∈ columns df) then Ok (column df c)
  else Raise (AttributeError c).

(** [df[c]] *)
Definition getitem (df : DataFrame) (c : string) : result (list value) :=
  if decide (c ∈ columns df) then Ok (column df c)
  else Raise (KeyError (VStr c)).

(** The elements of [l] at the positions where [mask] is [True]. *)
Fixpoint select {A} (l : list A) (mask : list bool) : list A :=
  match l, mask with
  | a :: l', b :: mask' => if b then a :: select l' mask' else select l' mask'
  | _, _ => []
  end.

(** [df[mask]]: a new table with the rows at which the boolean series
    holds; the rows keep their index labels. *)
Definition getitem_mask (df : DataFrame) (mask : list bool) : DataFrame :=
  {| columns := columns df; rows := select (rows df) mask |}.

(** [df[c] = series] *)
Definition setitem (df : DataFrame) (c : string) (s : list value) : DataFrame :=
  {| columns := if decide (c ∈ columns df) then columns df
                else (columns df ++ [c])%list;
     rows := zip_with (λ r v, (r.1, <[c := v]> r.2)) (rows df) s |}.

(** [df.drop(c, axis=1)]; an unknown label is a [ValueError] in the pandas
    that this Python 2 program runs on. *)
Definition drop (df : DataFrame) (c : string) : result DataFrame :=
  if decide (c ∈ columns df) then
    Ok {| columns := filter (λ x, x ≠ c) (columns df);
          rows := (λ r, (r.1, delete c r.2)) <$> rows df |}
  else Raise (ValueError ("labels ['" ++ c ++ "'] not contained in axis")).

(** [df.apply(f, axis=1)]: the series of [f] on every row, in order; the
    empty series for a table without rows. *)
Definition apply_rows (f : value * gmap string value → result value)
    (df : DataFrame) : result (list value) :=
  mapR f (rows df).

(** [series.astype(int)] on a column of parsed cells: every cell goes
    through [int].  The column that results holds 64-bit integers; a cell
    that converts to an integer outside that range is not in the domain of
    this definition (for it the cast of pandas raises an [OverflowError]),
    and the statements that depend on the cast succeeding in the program
    take the range as a hypothesis ([counts_fit]). *)
Definition astype_int (s : list value) : result (list value) :=
  mapR (λ v, VInt <$> py_int v) s.

(** [series.str.len() == n] on a column of strings (the program reads
    [NAICS2012] with [dtype] [str]); a cell that is not a [str] has no
    length and compares unequal. *)
Definition str_len_eq (s : list value) (n : nat) : list bool :=
  (λ v, match v with
        | VStr x => Nat.eqb (String.length x) n
        | _ => false
        end) <$> s.

(** [series.str.contains(sub)]; a cell that is not a [str] has no answer,
    which counts as [False] in a mask. *)
Definition str_contains_s (s : list value) (sub : string) : list bool :=
  (λ v, match v with
        | VStr x => str_contains sub x
        | _ => false
        end) <$> s.

(** [series == v] *)
Definition eq_s (s : list value) (v : value) : list bool :=
  (λ x, bool_decide (x = v)) <$> s.

(** [series.isin(l)] *)
Definition isin (s : list value) (l : list value) : list bool :=
  (λ x, bool_decide (x ∈ l)) <$> s.

(** [a | b] on boolean series *)
Definition or_s (a b : list bool) : list bool := zip_with orb a b.

(** The table built from a parsed response: [header] labels the columns,
    the data rows are numbered from 1 (row 0 was the header). *)
Definition table_row (header : list string) (i : nat) (vs : list value)
    : value * gmap string value :=
  (VInt (Z.of_nat (S i)), list_to_map (zip header vs)).

Definition of_table (header : list string) (data : list (list value)) : DataFrame :=
  {| columns := header; rows := imap (table_row header) data |}.

(** *** Grouping *)

(** The order of [sorted] on scalars of mixed type: [None], then numbers,
    then strings. *)
Definition value_leb (a b : value) : bool :=
  match a, b with
  | VNone, _ => true
  | VInt _, VNone => false
  | VInt x, VInt y => x <=? y
  | VInt _, VStr _ => true
  | VStr x, VStr y => String.leb x y
  | VStr _, _ => false
  end.

(** The group keys of [df.groupby(by)]: the distinct cells of column [by],
    missing cells left out, sorted. *)
Definition group_keys (df : DataFrame) (by_ : string) : list value :=
  merge_sort (λ a b, Is_true (value_leb a b))
    (remove_dups (filter (λ v, v ≠ VNone) (column df by_))).

(** The rows of the group with key [k]. *)
Definition group (df : DataFrame) (by_ : string) (k : value)
    : list (value * gmap string value) :=
  filter (λ r, cell by_ r = k) (rows df).

(** A column of integers is a column of 64-bit signed integers, and the
    sum of a group is taken in that type: it wraps around. *)
Definition wrap64 (z : Z) : Z := (z + 2 ^ 63) mod 2 ^ 64 - 2 ^ 63.

(** [a + b] on two cells of a summed column: the 64-bit sum of two
    integers, the concatenation of two strings. *)
Definition add_cells (a b : value) : result value :=
  match a, b with
  | VInt x, VInt y => Ok (VInt (wrap64 (x + y)))
  | VStr x, VStr y => Ok (VStr (x ++ y))
  | VInt _, _ => Raise (TypeError "unsupported operand type(s) for +: 'int' and 'str'")
  | _, _ => Raise (TypeError "cannot concatenate 'str' and 'int' objects")
  end.

(** The cells of [l] added to [acc] from left to right, missing cells
    skipped. *)
Fixpoint sum_from (acc : value) (l : list value) : result value :=
  match l with
  | [] => Ok acc
  | VNone :: l' => sum_from acc l'
  | v :: l' =>
      match add_cells acc v with
      | Ok acc' => sum_from acc' l'
      | Raise e => Raise e
      end
  end.

(** ['sum'] over the cells of a group.  Missing cells are skipped; integers
    are added in 64 bits; the strings of a text column are concatenated in
    row order; a group without any value sums to 0.  A group that mixes
    integers and strings is reported as the [TypeError] of the addition;
    the constructor builds no such column. *)
Fixpoint sum_cells (l : list value) : result value :=
  match l with
  | [] => Ok (VInt 0)
  | VNone :: l' => sum_cells l'
  | VInt z :: l' => sum_from (VInt (wrap64 z)) l'
  | VStr x :: l' => sum_from (VStr x) l'
  end.

(** [df.groupby(by).agg({c: 'sum' for c in cols})]: one row per group key,
    labelled by the key, holding the sum of each column of [cols].  The
    columns of the result are those of [cols]; in which order pandas puts
    the keys of the dictionary is not modelled. *)
Definition groupby_sum (df : DataFrame) (by_ : string) (cols : list string)
    : result DataFrame :=
  if decide (by_ ∈ columns df) then
    match filter (λ c, c ∉ columns df) cols with
    | [] =>
        rs ← mapR (λ k,
                cs ← mapR (λ c, v ← sum_cells (cell c <$> group df by_ k);
                                Ok (c, v)) cols;
                Ok (k, list_to_map cs)) (group_keys df by_);
        Ok {| columns := cols; rows := rs |}
    | c :: _ => Raise (KeyError (VStr c))
    end
  else Raise (KeyError (VStr by_)).

End Pandas.

(** ** The store and the execution monad *)

Module Exec.
Import Pandas.

Definition loc : Type := positive.

Inductive event : Type :=
  | EvGet (url : string)
  | EvPrint (msg : string)
  | EvReadCsv (path : string).

Record state : Type := {
  heap : gmap loc DataFrame;
  trace : list event
}.

(** A computation: it may raise, and it changes the store and the trace. *)
Definition M (A : Type) : Type := state → result A * state.

#[export] Instance M_ret : MRet M := λ A a s, (Ok a, s).
#[export] Instance M_bind : MBind M := λ A B k m s,
  match m s with
  | (Ok a, s') => k a s'
  | (Raise e, s') => (Raise e, s')
  end.

Definition raise {A} (e : exn) : M A := λ s, (Raise e, s).

Definition lift {A} (r : result A) : M A := λ s, (r, s).

(** Record an effect on the outside world. *)
Definition emit (ev : event) : M unit :=
  λ s, (Ok (), {| heap := heap s; trace := (trace s ++ [ev])%list |}).

(** The location the next object gets, and the store with an object put
    at a location. *)
Definition new_loc (s : state) : loc := fresh (dom (heap s)).

Definition store (s : state) (l : loc) (df : DataFrame) : state :=
  {| heap := <[l := df]> (heap s); trace := trace s |}.

(** A new table object. *)
Definition alloc (df : DataFrame) : M loc :=
  λ s, (Ok (new_loc s), store s (new_loc s) df).

(** The table at a location.  Python has no dangling reference; the
    [AttributeError] is the model's answer for a location that holds no
    table. *)
Definition deref (l : loc) : M DataFrame :=
  λ s, match heap s !! l with
       | Some df => (Ok df, s)
       | None => (Raise (AttributeError "DataFrame"), s)
       end.

(** [self.c] *)
Definition getattr (l : loc) (c : string) : M (list value) :=
  df ← deref l; lift (Pandas.getattr df c).

(** [self[mask]]: boolean indexing builds a new table object. *)
Definition getitem_mask (l : loc) (mask : list bool) : M loc :=
  df ← deref l; alloc (Pandas.getitem_mask df mask).

End Exec.

(** ** [cbp.py] *)

Module Cbp.
Import Pandas Exec.

Definition emp_imputation : gmap string Z :=
  list_to_map
    [("a", 10); ("b", 60); ("c", 175); ("e", 375); ("f", 750); ("g", 1750);
     ("h", 3750); ("i", 7500); ("j", 17500); ("k", 37500); ("l", 75000);
     ("m", 110000)].

#[global] Arguments emp_imputation : simpl never.

Definition naics_year : gmap Z string :=
  list_to_map
    [(2014, "NAICS2012"); (2013, "NAICS2012"); (2012, "NAICS2012");
     (2011, "NAICS2007"); (2010, "NAICS2007"); (2009, "NAICS2007");
     (2008, "NAICS2007")].

(** [d[k]] for a dictionary with [str] keys. *)
Definition dict_getitem (d : gmap string Z) (k : value) : result Z :=
  match k with
  | VStr s =>
      match d !! s with
      | Some v => Ok v
      | None => Raise (KeyError k)
      end
  | _ => Raise (KeyError k)
  end.

(** *** The outside world *)

(** The answer to a GET request: an HTTP error status, or a response whose
    JSON text is a matrix, the header row first. *)
Inductive http_reply : Type :=
  | HttpError (err : string)
  | HttpOk (header : list string) (data : list (list value)).

Record world : Type := {
  http : string → http_reply;
  csv_file : string → option DataFrame
}.

(** [requests.get(url)] followed by [raise_for_status()]; an HTTP error is
    printed and the process exits with status 1.  A request that gets no
    answer at all is not modelled. *)
Definition requests_get (w : world) (url : string)
    : M (list string * list (list value)) :=
  _ ← emit (EvGet url);
  match http w url with
  | HttpOk header data => mret (header, data)
  | HttpError err => _ ← emit (EvPrint err); raise (SystemExit 1)
  end.

(** [pd.read_json(req.text, orient='index', dtype=dtypes).T], the first
    row made the column labels and dropped.  The labels of [dtypes] are not
    yet labels of the table when it is read, so the reader guesses a type
    for each row of the matrix: a row that holds a text which does not read
    as a number is left as it was sent, which is what this definition
    says; a row of numbers, numeric strings and nulls only would be turned
    into numbers and is not in its domain.  The statements that depend on
    the cells of the table take that as a hypothesis ([read_as_sent]). *)
Definition read_json (req : list string * list (list value)) : DataFrame :=
  of_table req.1 req.2.

(** [pd.read_csv(filepath, dtype=dtypes)] *)
Definition read_csv (w : world) (filepath : string) : M DataFrame :=
  _ ← emit (EvReadCsv filepath);
  match csv_file w filepath with
  | Some df => mret df
  | None => raise (IOError filepath)
  end.

(** *** [Counties.__init__] *)

Record args : Type := {
  state_fips : string;
  year : value;
  read_from : string;
  key : option string;
  variables : option (list string);
  filepath : option string;
  impute_emp : bool
}.

(** The defaults of the signature. *)
Definition default_args (fips : string) : args :=
  {| state_fips := fips; year := VInt 2014; read_from := "api"; key := None;
     variables := None; filepath := None; impute_emp := true |}.

Definition default_vars : string := "EMP,EMP_F,ESTAB,NAICS2012,NAICS2012_TTL,GEO_TTL".

(** [cbp_dtypes.keys()].  The interpreter of this program (CPython 2) lists
    the keys of the two-entry dictionary [{'EMP': int, 'ESTAB': int}] in the
    order of their hash slots, ['ESTAB'] first.  The order only decides
    which exception is reported when both columns fail to convert. *)
Definition cbp_dtypes_keys : list string := ["ESTAB"; "EMP"].

(** [results[variable] = results[variable].astype(int)] *)
Definition cast_column (results : DataFrame) (variable : string) : result DataFrame :=
  s ← getitem results variable;
  s' ← astype_int s;
  Ok (setitem results variable s').

(** [for variable in ...: results[variable] = ...] *)
Fixpoint cast_columns (results : DataFrame) (vars : list string) : result DataFrame :=
  match vars with
  | [] => Ok results
  | variable :: vars' =>
      results' ← cast_column results variable;
      cast_columns results' vars'
  end.

(** [x.c] on a row of [df] *)
Definition row_getattr (df : DataFrame) (x : value * gmap string value) (c : string)
    : result value :=
  if decide (c ∈ columns df) then Ok (cell c x) else Raise (AttributeError c).

(** [lambda x: emp_imputation[x.EMP_F] if x.EMP_F else x.EMP] *)
Definition impute (df : DataFrame) (x : value * gmap string value) : result value :=
  flag ← row_getattr df x "EMP_F";
  if truthy_value flag then VInt <$> dict_getitem emp_imputation flag
  else row_getattr df x "EMP".

Definition url_of (a : args) : string :=
  let baseurl := "http://api.census.gov/data/" ++ py_str (year a) ++ "/cbp" in
  let cbp_vars :=
    if truthy_opt_list (variables a) then join "," (default [] (variables a))
    else default_vars in
  baseurl ++ "?get=" ++ cbp_vars ++ "&for=county:*&in=state:" ++ state_fips a
    ++ "&key=" ++ default "" (key a).

(** The constructor; its result is the location of the new [Counties]
    object. *)
Definition __init__ (w : world) (a : args) : M loc :=
  if String.eqb (read_from a) "api" then
    if negb (truthy_opt_str (key a)) then
      raise (ValueError
        "If reading from Census API, must provide API key in the key parameter")
    else
      req ← requests_get w (url_of a);
      let results := read_json req in
      results ← lift (cast_columns results cbp_dtypes_keys);
      let data := results in
      data ← (if impute_emp a then
                emp ← lift (apply_rows (impute data) data);
                mret (setitem data "EMP" emp)
              else mret data);
      data ← lift (drop data "EMP_F");
      alloc data
  else if String.eqb (read_from a) "csv" then
    if negb (truthy_opt_str (filepath a)) then
      raise (ValueError
        "If reading from CSV file, must provide path to file in filepath parameter")
    else
      data ← read_csv w (default "" (filepath a));
      alloc data
  else
    raise (ValueError
      ("Valid options for the read_from parameter are " ++ dquote ++ "api" ++ dquote
       ++ " and " ++ dquote ++ "csv" ++ dquote ++ ".")).

(** *** The queries *)

Definition county_type_error : exn := TypeError "County identifier must be str".

(** [Counties.get_county] *)
Definition get_county (self : loc) (county : pyobj) : M loc :=
  match county with
  | OList l =>
      c ← getattr self "county";
      getitem_mask self (isin c l)
  | OVal (VStr s) =>
      c ← getattr self "county";
      getitem_mask self (eq_s c (VStr s))
  | _ => raise county_type_error
  end.

(** [if county: ... else: return digits], the text that ends each of the
    three digit-level queries. *)
Definition by_county (digits : loc) (county : pyobj) : M loc :=
  if truthy county then
    match county with
    | OList l =>
        c ← getattr digits "county";
        getitem_mask digits (isin c l)
    | OVal (VStr s) =>
        c ← getattr digits "county";
        getitem_mask digits (eq_s c (VStr s))
    | _ => raise county_type_error
    end
  else mret digits.

(** [Counties.two_digit] *)
Definition two_digit (self : loc) (county : pyobj) : M loc :=
  n1 ← getattr self "NAICS2012";
  n2 ← getattr self "NAICS2012";
  two_digits ← getitem_mask self (or_s (str_len_eq n1 2) (str_contains_s n2 "-"));
  by_county two_digits county.

(** [Counties.three_digit] *)
Definition three_digit (self : loc) (county : pyobj) : M loc :=
  n1 ← getattr self "NAICS2012";
  n2 ← getattr self "NAICS2012";
  three_digits ← getitem_mask self (or_s (str_len_eq n1 3) (eq_s n2 (VStr "00")));
  by_county three_digits county.

(** [Counties.four_digit] *)
Definition four_digit (self : loc) (county : pyobj) : M loc :=
  n1 ← getattr self "NAICS2012";
  n2 ← getattr self "NAICS2012";
  four_digits ← getitem_mask self (or_s (str_len_eq n1 4) (eq_s n2 (VStr "00")));
  by_county four_digits county.

(** [Counties.total] *)
Definition total (self : loc) : M loc :=
  df ← deref self;
  r ← lift (groupby_sum df "NAICS2012" ["EMP"; "ESTAB"]);
  alloc r.

End Cbp.

(** ** Vocabulary of the statements *)

Module Props.
Import Pandas Exec Cbp.

(** The industry code and the county of a row. *)
Definition code (r : value * gmap string value) : value := cell "NAICS2012" r.
Definition county_of (r : value * gmap string value) : value := cell "county" r.

(** A code kept at the two-digit level: two characters, or a range. *)
Definition two_digit_code (v : value) : Prop :=
  match v with
  | VStr x => String.length x = 2%nat ∨ str_contains "-" x = true
  | _ => False
  end.

(** A code kept at the [n]-digit level, [n] being 3 or 4: [n] characters,
    or the code ["00"]. *)
Definition n_digit_code (n : nat) (v : value) : Prop :=
  match v with
  | VStr x => String.length x = n ∨ x = "00"
  | _ => False
  end.

(** A code that contains the range separator. *)
Definition range_code (v : value) : Prop :=
  match v with
  | VStr x => str_contains "-" x = true
  | _ => False
  end.

#[export] Instance two_digit_code_dec v : Decision (two_digit_code v).
Proof. destruct v; simpl; apply _. Defined.

#[export] Instance n_digit_code_dec n v : Decision (n_digit_code n v).
Proof. destruct v; simpl; apply _. Defined.

#[export] Instance range_code_dec v : Decision (range_code v).
Proof. destruct v; simpl; apply _. Defined.

(** The rows of [df] that satisfy [P], with the columns of [df]. *)
Definition restrict (df : DataFrame) (P : value * gmap string value → Prop)
    `{!∀ r, Decision (P r)} : DataFrame :=
  {| columns := columns df; rows := filter P (rows df) |}.

(** The industry codes of [df] are exactly the strings of [cs]. *)
Definition has_codes (df : DataFrame) (cs : list string) : Prop :=
  ∀ v, v ∈ column df "NAICS2012" ↔ v ∈ VStr <$> cs.

(** The table a call returned, if it returned one. *)
Definition result_frame (x : result loc * state) : option DataFrame :=
  match x with
  | (Ok l, s') => heap s' !! l
  | (Raise _, _) => None
  end.

(** A computation that only adds objects to the store: what was there is
    still there, unchanged, and nothing was sent, read or printed. *)
Definition extends (s s' : state) : Prop :=
  heap s ⊆ heap s' ∧ trace s' = trace s.

(** The three cases in which the constructor is called with a wrong
    configuration: no key for the API, no path for the file, or a source
    that is neither.  A key or path is missing when it is [None] or the
    empty string. *)
Definition bad_configuration (a : args) : Prop :=
  (read_from a = "api" ∧ truthy_opt_str (key a) = false) ∨
  (read_from a = "csv" ∧ truthy_opt_str (filepath a) = false) ∨
  (read_from a ≠ "api" ∧ read_from a ≠ "csv").

(** What the constructor does after the request in API mode: conversions, imputation, the drop
    of the flag column and the allocation of the object. *)
Definition after_request (a : args) (req : list string * list (list value)) : M loc :=
  results ← lift (cast_columns (read_json req) cbp_dtypes_keys);
  data ← (if impute_emp a then
            emp ← lift (apply_rows (impute results) results);
            mret (setitem results "EMP" emp)
          else mret results);
  data ← lift (drop data "EMP_F");
  alloc data.

(** Employment after construction with imputation: [src] is the row as
    the API sent it, [r] the row of the constructed table.  With a flag,
    employment is the entry of [emp_imputation] for the flag; without one,
    it is the employment sent, as an integer. *)
Definition imputed (src r : value * gmap string value) : Prop :=
  let flag := cell "EMP_F" src in
  if truthy_value flag then
    ∃ c n, flag = VStr c ∧ emp_imputation !! c = Some n ∧ cell "EMP" r = VInt n
  else
    ∃ n, py_int (cell "EMP" src) = Ok n ∧ cell "EMP" r = VInt n.

(** A flag that [emp_imputation] can replace: none, or one of its keys. *)
Definition known_flag (flag : value) : Prop :=
  truthy_value flag = false ∨ ∃ c, flag = VStr c ∧ is_Some (emp_imputation !! c).

(** The counts of every row of a response convert to integers. *)
Definition counts_convert (header : list string) (data : list (list value)) : Prop :=
  ∀ i vs, data !! i = Some vs →
    ∃ e b, py_int (cell "EMP" (table_row header i vs)) = Ok e ∧
           py_int (cell "ESTAB" (table_row header i vs)) = Ok b.

(** The integer in cell [c] of a row, and the sum of column [c] over rows. *)
Definition cell_int (c : string) (r : value * gmap string value) : Z :=
  match cell c r with
  | VInt z => z
  | _ => 0
  end.

Definition sum_over (c : string) (g : list (value * gmap string value)) : Z :=
  foldr Z.add 0 (cell_int c <$> g).

(** Columns [EMP] and [ESTAB] hold integers in every row. *)
Definition counts_are_int (df : DataFrame) : Prop :=
  ∀ r, r ∈ rows df → ∃ e b, cell "EMP" r = VInt e ∧ cell "ESTAB" r = VInt b.

(** What a query that does not mutate leaves behind, [run] being its
    result and final state when started in [s]: the table of [self] and
    every other table of [s] are still there unchanged, the trace is
    unchanged, and a returned table is an object that [s] did not hold. *)
Definition pure_query (s : state) (self : loc) (df : DataFrame)
    (run : result loc * state) : Prop :=
  heap run.2 !! self = Some df ∧
  extends s run.2 ∧
  match run.1 with
  | Ok l => l ≠ self ∧ heap s !! l = None ∧ is_Some (heap run.2 !! l)
  | Raise _ => True
  end.

(** *** Sample data *)

Definition sample_columns : list string := ["EMP"; "ESTAB"; "NAICS2012"; "county"].

Definition sample_row (i : Z) (county naics : string) (emp estab : Z)
    : value * gmap string value :=
  (VInt i,
   list_to_map [("EMP", VInt emp); ("ESTAB", VInt estab);
                ("NAICS2012", VStr naics); ("county", VStr county)]).

(** One county, the five codes of the specification's example. *)
Definition five_codes : DataFrame :=
  {| columns := sample_columns;
     rows := [sample_row 1 "013" "00" 100 10; sample_row 2 "013" "11" 5 1;
              sample_row 3 "013" "113" 4 1; sample_row 4 "013" "1133" 3 1;
              sample_row 5 "013" "31-33" 40 4] |}.

(** Two counties. *)
Definition two_counties : DataFrame :=
  {| columns := sample_columns;
     rows := [sample_row 1 "013" "00" 100 10; sample_row 2 "013" "11" 5 1;
              sample_row 3 "015" "00" 70 8; sample_row 4 "015" "11" 7 2] |}.

(** Two rows of one industry, in two counties. *)
Definition same_code : DataFrame :=
  {| columns := sample_columns;
     rows := [sample_row 1 "013" "11" 5 1; sample_row 2 "015" "11" 7 2] |}.

(** Codes with a separator that are three and four characters long, next
    to ordinary ones. *)
Definition short_ranges : DataFrame :=
  {| columns := sample_columns;
     rows := [sample_row 1 "013" "00" 100 10; sample_row 2 "013" "113" 4 1;
              sample_row 3 "013" "1-2" 9 2; sample_row 4 "013" "1133" 3 1;
              sample_row 5 "013" "31-3" 7 1; sample_row 6 "013" "31-33" 40 4] |}.

(** A response of the API for the default variables: a row with its
    employment reported, and rows whose employment is withheld behind a
    flag. *)
Definition sample_header : list string :=
  ["EMP"; "EMP_F"; "ESTAB"; "NAICS2012"; "NAICS2012_TTL"; "GEO_TTL"; "state"; "county"].

Definition sample_data : list (list value) :=
  [[VStr "1200"; VNone; VStr "85"; VStr "00"; VStr "Total for all sectors";
    VStr "Alpine County, California"; VStr "06"; VStr "003"];
   [VStr "0"; VStr "a"; VStr "3"; VStr "11"; VStr "Agriculture";
    VStr "Alpine County, California"; VStr "06"; VStr "003"];
   [VStr "0"; VStr "m"; VStr "1"; VStr "22"; VStr "Utilities";
    VStr "Alpine County, California"; VStr "06"; VStr "003"]].

(** The same with a flag that is not a key of [emp_imputation]. *)
Definition flag_d_row : list value :=
  [VStr "0"; VStr "d"; VStr "3"; VStr "11"; VStr "Agriculture";
   VStr "Alpine County, California"; VStr "06"; VStr "003"].

Definition flag_d_data : list (list value) :=
  [[VStr "1200"; VNone; VStr "85"; VStr "00"; VStr "Total for all sectors";
    VStr "Alpine County, California"; VStr "06"; VStr "003"];
   flag_d_row].

(** A world whose API answers every request with the given rows, and that
    has no file. *)
Definition api_world (data : list (list value)) : world :=
  {| http := λ _, HttpOk sample_header data; csv_file := λ _, None |}.

Definition sample_args : args :=
  {| state_fips := "06"; year := VInt 2014; read_from := "api"; key := Some "KEY";
     variables := None; filepath := None; impute_emp := true |}.

Definition empty_state : state := {| heap := ∅; trace := [] |}.

(** A store that holds one table, at [first_loc], and an empty trace. *)
Definition first_loc : loc := 1%positive.

Definition one_table (df : DataFrame) : state :=
  {| heap := {[first_loc := df]}; trace := [] |}.

(** *** Vocabulary of the further properties *)

(** The row [src] as the API sent it and the row [r] of the constructed
    table agree outside the three columns the constructor touches; [r] has
    the label of [src], its establishments as an integer and no flag. *)
Definition built_from (src r : value * gmap string value) : Prop :=
  r.1 = src.1 ∧
  r.2 !! "EMP_F" = None ∧
  (∃ b, py_int (cell "ESTAB" src) = Ok b ∧ cell "ESTAB" r = VInt b) ∧
  ∀ c, c ≠ "EMP" → c ≠ "ESTAB" → c ≠ "EMP_F" → cell c r = cell c src.

(** A response from which the constructor can build a table. *)
Definition good_response (a : args) (header : list string)
    (data : list (list value)) : Prop :=
  "EMP" ∈ header ∧ "ESTAB" ∈ header ∧ "EMP_F" ∈ header ∧
  counts_convert header data ∧
  (impute_emp a = true →
   ∀ i vs, data !! i = Some vs → known_flag (cell "EMP_F" (table_row header i vs))).

(** The county of a row is the one asked for. *)
Definition county_matches (county : pyobj) (r : value * gmap string value) : Prop :=
  match county with
  | OVal (VStr c) => county_of r = VStr c
  | OList l => county_of r ∈ l
  | _ => False
  end.

#[export] Instance county_matches_dec county r : Decision (county_matches county r).
Proof. destruct county as [[| |]| |]; simpl; apply _. Defined.

(** A selector that [get_county] accepts. *)
Definition str_or_list (county : pyobj) : Prop :=
  (∃ c, county = OStr c) ∨ (∃ l, county = OList l).

(** The state after one more event. *)
Definition after_event (s : state) (ev : event) : state :=
  {| heap := heap s; trace := (trace s ++ [ev])%list |}.

(** The sum of a list of integers. *)
Definition sumZ (l : list Z) : Z := foldr Z.add 0 l.

(** The arguments [a] with [impute_emp] set to [b]. *)
Definition with_impute (b : bool) (a : args) : args :=
  {| state_fips := state_fips a; year := year a; read_from := read_from a;
     key := key a; variables := variables a; filepath := filepath a;
     impute_emp := b |}.

(** No row of the response carries a flag. *)
Definition no_flags (header : list string) (data : list (list value)) : Prop :=
  ∀ i vs, data !! i = Some vs →
    truthy_value (cell "EMP_F" (table_row header i vs)) = false.

(** *** More sample data *)

(** A world whose API answers every request with an HTTP error. *)
Definition error_world : world :=
  {| http := λ _, HttpError "404 Client Error: Not Found"; csv_file := λ _, None |}.

(** A world with one file, [cbp.csv], that still has its flag column. *)
Definition csv_table : DataFrame :=
  {| columns := ["EMP"; "EMP_F"; "ESTAB"; "NAICS2012"; "county"];
     rows := [(VInt 0, list_to_map [("EMP", VInt 0); ("EMP_F", VStr "a");
                                    ("ESTAB", VInt 3); ("NAICS2012", VStr "11");
                                    ("county", VStr "003")])] |}.

Definition csv_world : world :=
  {| http := λ _, HttpError "no network";
     csv_file := λ path, if String.eqb path "cbp.csv" then Some csv_table else None |}.

Definition csv_args : args :=
  {| state_fips := "06"; year := VInt 2014; read_from := "csv"; key := None;
     variables := None; filepath := Some "cbp.csv"; impute_emp := true |}.

(** A response without any flag. *)
Definition unflagged_data : list (list value) :=
  [[VStr "1200"; VNone; VStr "85"; VStr "00"; VStr "Total for all sectors";
    VStr "Alpine County, California"; VStr "06"; VStr "003"];
   [VStr "40"; VStr ""; VStr "3"; VStr "11"; VStr "Agriculture";
    VStr "Alpine County, California"; VStr "06"; VStr "003"]].

Definition no_impute_args : args :=
  {| state_fips := "06"; year := VInt 2014; read_from := "api"; key := Some "KEY";
     variables := None; filepath := None; impute_emp := false |}.

(** A table of a year whose codes are of the 2007 revision. *)
Definition naics2007_table : DataFrame :=
  {| columns := ["EMP"; "ESTAB"; "NAICS2007"; "county"];
     rows := [(VInt 1, list_to_map [("EMP", VInt 5); ("ESTAB", VInt 1);
                                    ("NAICS2007", VStr "11"); ("county", VStr "013")])] |}.

(** *** 64-bit counts *)

(** The range of a 64-bit signed integer, the type of the cells of an
    integer column. *)
Definition int64 (z : Z) : Prop := - 2 ^ 63 ≤ z < 2 ^ 63.

(** Columns [EMP] and [ESTAB] hold 64-bit integers in every row. *)
Definition counts_are_int64 (df : DataFrame) : Prop :=
  ∀ r, r ∈ rows df →
    ∃ e b, cell "EMP" r = VInt e ∧ cell "ESTAB" r = VInt b ∧ int64 e ∧ int64 b.

(** The rows of [df] whose industry code is [k]. *)
Definition rows_with_code (df : DataFrame) (k : value)
    : list (value * gmap string value) :=
  filter (λ r, code r = k) (rows df).

(** The industry codes of the rows of [df], in row order. *)
Definition codes (df : DataFrame) : list value := code <$> rows df.

(** The employment and the establishments of every industry code of [df],
    summed over the rows with that code, are in the range of a 64-bit
    integer. *)
Definition sums_fit (df : DataFrame) : Prop :=
  ∀ k, k ∈ codes df →
    int64 (sum_over "EMP" (rows_with_code df k)) ∧
    int64 (sum_over "ESTAB" (rows_with_code df k)).

(** *** Responses that are read as they were sent

    [pd.read_json] guesses a type for each row of the matrix: a row in
    which every cell reads as a number is turned into numbers, any other
    row is left as it was sent.  The statements on the table that the
    constructor builds are about responses of the second kind, which is
    what the API sends for the default variables (every row has a title). *)

(** A letter that occurs in no number.  A number is written with digits, a
    sign, a point, an exponent mark [e] and blanks, or is one of the words
    [inf], [infinity] and [nan], in either case. *)
Definition text_char (c : ascii) : bool :=
  let n := Z.of_nat (nat_of_ascii c) in
  let lower := if (65 <=? n) && (n <=? 90) then n + 32 else n in
  (97 <=? lower) && (lower <=? 122) &&
  negb (bool_decide (lower ∈ [97; 101; 102; 105; 110; 116; 121])).

(** A cell that holds a text with such a letter: it does not read as a
    number. *)
Definition text_cell (v : value) : bool :=
  match v with
  | VStr x => existsb text_char (String.list_ascii_of_string x)
  | _ => false
  end.

(** The labels of the header are distinct, and every data row has one cell
    for each label and holds a text. *)
Definition read_as_sent (header : list string) (data : list (list value)) : Prop :=
  NoDup header ∧
  Forall (λ vs, length vs = length header ∧ existsb text_cell vs = true) data.

(** Every count of the response that converts to an integer converts to a
    64-bit one. *)
Definition counts_fit (header : list string) (data : list (list value)) : Prop :=
  ∀ i vs c z, data !! i = Some vs → c ∈ ["EMP"; "ESTAB"] →
    py_int (cell c (table_row header i vs)) = Ok z → int64 z.

(** Two rows of one industry whose employment adds up to 2^63. *)
Definition large_counts : DataFrame :=
  {| columns := sample_columns;
     rows := [sample_row 1 "013" "11" (2 ^ 62) 1;
              sample_row 2 "015" "11" (2 ^ 62) 2] |}.

(** A table whose employment column holds the titles of the industries. *)
Definition text_counts : DataFrame :=
  {| columns := sample_columns;
     rows := [(VInt 1, list_to_map [("EMP", VStr "Crop"); ("ESTAB", VInt 1);
                                    ("NAICS2012", VStr "11"); ("county", VStr "013")]);
              (VInt 2, list_to_map [("EMP", VStr "Forest"); ("ESTAB", VInt 2);
                                    ("NAICS2012", VStr "11"); ("county", VStr "015")])] |}.

End Props.

(** ** Properties *)

Import Pandas Exec Cbp Props.

(** *** Lists, masks and rows *)

(** Membership in a list that is written out. *)
Ltac in_list := repeat first [by left | right].

Section Lists.
Context {A B : Type}.

Lemma mapR_length (f : A → result B) l l' :
  mapR f l = Ok l' → length l' = length l.
Proof.
  revert l'. induction l as [|a l IH]; intros l' H; simpl in H.
  - by inversion H.
  - destruct (f a); [|done]. destruct (mapR f l); [|done].
    inversion H; subst. simpl. f_equal. by apply IH.
Qed.

Lemma mapR_lookup (f : A → result B) l l' i a :
  mapR f l = Ok l' → l !! i = Some a → ∃ b, l' !! i = Some b ∧ f a = Ok b.
Proof.
  revert l' i. induction l as [|x l IH]; intros l' i H Hi; [done|].
  simpl in H. destruct (f x) as [b|] eqn:Hx; [|done].
  destruct (mapR f l) as [bs|] eqn:Hl; [|done]. inversion H; subst.
  destruct i as [|i]; simpl in *.
  - inversion Hi; subst. eauto.
  - eapply IH; eauto.
Qed.

Lemma mapR_all_ok (f : A → result B) l :
  (∀ a, a ∈ l → ∃ b, f a = Ok b) → ∃ l', mapR f l = Ok l'.
Proof.
  induction l as [|x l IH]; intros H; simpl; [eauto|].
  destruct (H x) as [b ->]; [left|].
  destruct IH as [bs ->]; [|eauto].
  intros a Ha. apply H. by right.
Qed.

Lemma mapR_raise (f : A → result B) l e :
  mapR f l = Raise e → ∃ a, a ∈ l ∧ f a = Raise e.
Proof.
  induction l as [|x l IH]; intros H; simpl in H; [done|].
  destruct (f x) as [b|e'] eqn:Hx.
  - destruct (mapR f l) as [bs|e'] eqn:Hl; [done|]. inversion H; subst.
    destruct IH as (a & Ha & Hf); [done|]. exists a. split; [by right|done].
  - inversion H; subst. exists x. split; [left|done].
Qed.

Lemma mapR_fails (f : A → result B) l a e :
  a ∈ l → f a = Raise e → ∃ e', mapR f l = Raise e'.
Proof.
  induction l as [|x l IH]; intros Ha Hf; [by apply elem_of_nil in Ha|].
  simpl. destruct (f x) as [b|e'] eqn:Hx; [|eauto].
  apply elem_of_cons in Ha as [->|Ha]; [congruence|].
  destruct (IH Ha Hf) as [e' ->]. eauto.
Qed.

Lemma select_filter (f : A → bool) (P : A → Prop) `{!∀ a, Decision (P a)} l :
  (∀ a, f a = true ↔ P a) → select l (f <$> l) = filter P l.
Proof.
  intros Hf. induction l as [|a l IH]; [done|].
  rewrite fmap_cons, filter_cons. cbn [select]. destruct (f a) eqn:Ha.
  - rewrite decide_True by by apply Hf. by rewrite IH.
  - rewrite decide_False; [done|]. intros HP. apply Hf in HP. congruence.
Qed.

Lemma or_s_fmap (f g : A → bool) l :
  or_s (f <$> l) (g <$> l) = (λ a, f a || g a) <$> l.
Proof.
  induction l as [|a l IH]; [done|].
  unfold or_s in *. rewrite !fmap_cons. cbn [zip_with]. by rewrite IH.
Qed.

End Lists.

(** *** Running the primitives of the store *)

Section Runs.
Implicit Types (s : state) (df : DataFrame) (l self : loc) (c : string).

Lemma bind_run {A B} (m : M A) (k : A → M B) s :
  (m ≫= k) s = match m s with
               | (Ok a, s') => k a s'
               | (Raise e, s') => (Raise e, s')
               end.
Proof. reflexivity. Qed.

Lemma new_loc_fresh s : heap s !! new_loc s = None.
Proof. unfold new_loc. apply not_elem_of_dom. apply is_fresh. Qed.

Lemma store_lookup s l df : heap (store s l df) !! l = Some df.
Proof. apply lookup_insert_eq. Qed.

Lemma store_new_extends s df : heap s ⊆ heap (store s (new_loc s) df).
Proof. apply insert_subseteq, new_loc_fresh. Qed.

Lemma getattr_ok s l df c :
  heap s !! l = Some df → c ∈ columns df →
  Exec.getattr l c s = (Ok (column df c), s).
Proof.
  intros H Hc. unfold Exec.getattr. rewrite bind_run. unfold deref. rewrite H.
  unfold lift, Pandas.getattr. by rewrite decide_True.
Qed.

Lemma getattr_missing s l df c :
  heap s !! l = Some df → c ∉ columns df →
  Exec.getattr l c s = (Raise (AttributeError c), s).
Proof.
  intros H Hc. unfold Exec.getattr. rewrite bind_run. unfold deref. rewrite H.
  unfold lift, Pandas.getattr. by rewrite decide_False.
Qed.

Lemma getattr_state s l c r s' : Exec.getattr l c s = (r, s') → s' = s.
Proof.
  unfold Exec.getattr. rewrite bind_run. unfold deref, lift.
  destruct (heap s !! l); intros H; by inversion H.
Qed.

Lemma getattr_not_type_error s l c msg s' :
  Exec.getattr l c s ≠ (Raise (TypeError msg), s').
Proof.
  unfold Exec.getattr. rewrite bind_run. unfold deref, lift, Pandas.getattr.
  destruct (heap s !! l); [|done]. by case_decide.
Qed.

Lemma getitem_mask_ok s l df mask :
  heap s !! l = Some df →
  Exec.getitem_mask l mask s
  = (Ok (new_loc s), store s (new_loc s) (Pandas.getitem_mask df mask)).
Proof.
  intros H. unfold Exec.getitem_mask. rewrite bind_run. unfold deref. by rewrite H.
Qed.

Lemma extends_refl s : extends s s.
Proof. by split. Qed.

Lemma extends_trans s1 s2 s3 : extends s1 s2 → extends s2 s3 → extends s1 s3.
Proof. intros [H1 T1] [H2 T2]. split; [by etrans|congruence]. Qed.

Lemma extends_lookup s s' l df :
  extends s s' → heap s !! l = Some df → heap s' !! l = Some df.
Proof. intros [H _] Hl. eapply lookup_weaken; eauto. Qed.

Lemma extends_fresh s s' l : extends s s' → heap s' !! l = None → heap s !! l = None.
Proof.
  intros [H _] Hl. destruct (heap s !! l) as [df|] eqn:E; [|done].
  eapply lookup_weaken in E; eauto. congruence.
Qed.

Lemma getitem_mask_new s l mask r s' :
  Exec.getitem_mask l mask s = (r, s') →
  extends s s' ∧
  ∀ l', r = Ok l' → heap s !! l' = None ∧ is_Some (heap s' !! l').
Proof.
  unfold Exec.getitem_mask. rewrite bind_run. unfold deref.
  destruct (heap s !! l) as [df|]; intros H; inversion H; subst.
  - split; [split; [apply store_new_extends|done]|].
    intros l' [= <-]. split; [apply new_loc_fresh|]. rewrite store_lookup. eauto.
  - split; [apply extends_refl|done].
Qed.

End Runs.

(** *** The digit-level queries *)

Section Digits.
Implicit Types (s : state) (df : DataFrame) (self : loc) (county : pyobj).

Lemma filter_ext_in {A} (P Q : A → Prop)
    `{!∀ a, Decision (P a)} `{!∀ a, Decision (Q a)} (l : list A) :
  (∀ a, a ∈ l → P a ↔ Q a) → filter P l = filter Q l.
Proof.
  induction l as [|a l IH]; intros Hext; [done|].
  rewrite !filter_cons.
  assert (P a ↔ Q a) as Ha by (apply Hext; left).
  rewrite IH by (intros b Hb; apply Hext; by right).
  destruct (decide (P a)), (decide (Q a)); tauto.
Qed.

Lemma two_digit_mask df :
  Pandas.getitem_mask df
    (or_s (str_len_eq (column df "NAICS2012") 2)
          (str_contains_s (column df "NAICS2012") "-"))
  = restrict df (λ r, two_digit_code (code r)).
Proof.
  unfold Pandas.getitem_mask, restrict. f_equal.
  unfold str_len_eq, str_contains_s, column.
  rewrite <- !list_fmap_compose, or_s_fmap. apply select_filter.
  intros r. unfold code, compose. destruct (cell "NAICS2012" r); simpl; [done| |done].
  rewrite orb_true_iff, Nat.eqb_eq. done.
Qed.

Lemma n_digit_mask df n :
  Pandas.getitem_mask df
    (or_s (str_len_eq (column df "NAICS2012") n)
          (eq_s (column df "NAICS2012") (VStr "00")))
  = restrict df (λ r, n_digit_code n (code r)).
Proof.
  unfold Pandas.getitem_mask, restrict. f_equal.
  unfold str_len_eq, eq_s, column.
  rewrite <- !list_fmap_compose, or_s_fmap. apply select_filter.
  intros r. unfold code, compose. destruct (cell "NAICS2012" r) as [|x|z]; simpl.
  - done.
  - rewrite orb_true_iff, Nat.eqb_eq, bool_decide_eq_true.
    split; (intros [?|?]; [by left|right; congruence]).
  - done.
Qed.

Lemma by_county_falsy d county s :
  truthy county = false → by_county d county s = (Ok d, s).
Proof. intros H. unfold by_county. by rewrite H. Qed.

(** Each digit-level query first builds the table of the rows at its
    level, then hands it to the county step. *)
Lemma two_digit_run s self df county :
  heap s !! self = Some df → "NAICS2012" ∈ columns df →
  two_digit self county s
  = by_county (new_loc s) county
      (store s (new_loc s) (restrict df (λ r, two_digit_code (code r)))).
Proof.
  intros H Hc. unfold two_digit.
  rewrite bind_run, (getattr_ok s self df) by done.
  rewrite bind_run, (getattr_ok s self df) by done.
  rewrite bind_run, (getitem_mask_ok s self df) by done.
  by rewrite two_digit_mask.
Qed.

Lemma three_digit_run s self df county :
  heap s !! self = Some df → "NAICS2012" ∈ columns df →
  three_digit self county s
  = by_county (new_loc s) county
      (store s (new_loc s) (restrict df (λ r, n_digit_code 3 (code r)))).
Proof.
  intros H Hc. unfold three_digit.
  rewrite bind_run, (getattr_ok s self df) by done.
  rewrite bind_run, (getattr_ok s self df) by done.
  rewrite bind_run, (getitem_mask_ok s self df) by done.
  by rewrite n_digit_mask.
Qed.

Lemma four_digit_run s self df county :
  heap s !! self = Some df → "NAICS2012" ∈ columns df →
  four_digit self county s
  = by_county (new_loc s) county
      (store s (new_loc s) (restrict df (λ r, n_digit_code 4 (code r)))).
Proof.
  intros H Hc. unfold four_digit.
  rewrite bind_run, (getattr_ok s self df) by done.
  rewrite bind_run, (getattr_ok s self df) by done.
  rewrite bind_run, (getitem_mask_ok s self df) by done.
  by rewrite n_digit_mask.
Qed.

Lemma elem_of_column df c v :
  v ∈ column df c ↔ ∃ r, r ∈ rows df ∧ cell c r = v.
Proof.
  unfold column. rewrite list_elem_of_fmap. split; intros (r & ? & ?); eauto.
Qed.

End Digits.

(** *** Claims on the digit-level queries *)

Lemma five_codes_has_codes :
  has_codes five_codes ["00"; "11"; "113"; "1133"; "31-33"].
Proof. intros v. reflexivity. Qed.

Lemma one_table_lookup df : heap (one_table df) !! first_loc = Some df.
Proof. apply lookup_singleton_eq. Qed.

Lemma sample_has_naics : "NAICS2012" ∈ sample_columns.
Proof. unfold sample_columns. in_list. Qed.

Lemma sample_has_county : "county" ∈ sample_columns.
Proof. unfold sample_columns. in_list. Qed.

(** C2, as stated, does not hold.  On a table whose codes are exactly
    "00", "11", "113", "1133" and "31-33", [two_digit] without a county
    returns the rows with codes "00", "11" and "31-33": the code "00" has two
    characters and is kept, so the codes of the result are not exactly "11"
    and "31-33". *)
Lemma two_digit_five_codes_keeps_00 :
  has_codes five_codes ["00"; "11"; "113"; "1133"; "31-33"] ∧
  (λ out, column out "NAICS2012")
    <$> result_frame (two_digit first_loc ONone (one_table five_codes))
  = Some [VStr "00"; VStr "11"; VStr "31-33"] ∧
  ¬ ∃ out, result_frame (two_digit first_loc ONone (one_table five_codes)) = Some out ∧
           has_codes out ["11"; "31-33"].
Proof.
  assert ((λ out, column out "NAICS2012")
            <$> result_frame (two_digit first_loc ONone (one_table five_codes))
          = Some [VStr "00"; VStr "11"; VStr "31-33"]) as Hrun
    by (vm_compute; reflexivity).
  split; [apply five_codes_has_codes|]. split; [exact Hrun|].
  intros (out & Hout & Hcodes). rewrite Hout in Hrun. simpl in Hrun.
  injection Hrun as Hcol.
  assert (VStr "00" ∈ column out "NAICS2012") as Hin by (rewrite Hcol; left).
  apply Hcodes in Hin. simpl in Hin.
  repeat (apply elem_of_cons in Hin as [Hin|Hin]; [discriminate|]).
  by apply elem_of_nil in Hin.
Qed.

(** C2, amended.  On every table whose industry codes are exactly "00",
    "11", "113", "1133" and "31-33", [two_digit] without a county returns a
    new table with the same columns holding exactly the rows whose code has
    two characters or contains '-'; these are the rows with codes "00", "11"
    and "31-33". *)
Theorem two_digit_five_codes (s : state) (self : loc) (df : DataFrame) :
  heap s !! self = Some df →
  "NAICS2012" ∈ columns df →
  has_codes df ["00"; "11"; "113"; "1133"; "31-33"] →
  ∃ out,
    two_digit self ONone s = (Ok (new_loc s), store s (new_loc s) out) ∧
    columns out = columns df ∧
    rows out = filter (λ r, two_digit_code (code r)) (rows df) ∧
    rows out = filter (λ r, code r ∈ VStr <$> ["00"; "11"; "31-33"]) (rows df) ∧
    has_codes out ["00"; "11"; "31-33"].
Proof.
  intros Hself Hcol Hcodes.
  assert (∀ r, r ∈ rows df →
            two_digit_code (code r) ↔ code r ∈ VStr <$> ["00"; "11"; "31-33"])
    as Hlevel.
  { intros r Hr.
    assert (code r ∈ VStr <$> ["00"; "11"; "113"; "1133"; "31-33"]) as Hin
      by (apply Hcodes, elem_of_column; eauto).
    simpl in Hin. simpl.
    repeat (apply elem_of_cons in Hin as [->|Hin]);
      [| | | | |by apply elem_of_nil in Hin]; simpl.
    - split; [intros _; left|intros _; by left].
    - split; [intros _; right; left|intros _; by left].
    - split; [intros [?|?]; discriminate|].
      intros Hin. repeat (apply elem_of_cons in Hin as [Hin|Hin]; [discriminate|]).
      by apply elem_of_nil in Hin.
    - split; [intros [?|?]; discriminate|].
      intros Hin. repeat (apply elem_of_cons in Hin as [Hin|Hin]; [discriminate|]).
      by apply elem_of_nil in Hin.
    - split; [intros _; right; right; left|intros _; by right]. }
  exists (restrict df (λ r, two_digit_code (code r))).
  split; [|split; [done|split; [done|split]]].
  - rewrite (two_digit_run s self df) by done. by apply by_county_falsy.
  - simpl. by apply filter_ext_in.
  - intros v. rewrite elem_of_column. simpl. split.
    + intros (r & Hr & <-). apply list_elem_of_filter in Hr as [Hp Hr].
      by apply Hlevel.
    + intros Hv.
      assert (v ∈ column df "NAICS2012") as Hin.
      { apply Hcodes. simpl.
        repeat (apply elem_of_cons in Hv as [->|Hv]);
          [| | |by apply elem_of_nil in Hv]; in_list. }
      apply elem_of_column in Hin as (r & Hr & <-).
      exists r. split; [|done]. apply list_elem_of_filter. split; [|done].
      by apply Hlevel.
Qed.

(** The amended C2 on the sample table. *)
Lemma two_digit_five_codes_witness :
  heap (one_table five_codes) !! first_loc = Some five_codes ∧
  "NAICS2012" ∈ columns five_codes ∧
  has_codes five_codes ["00"; "11"; "113"; "1133"; "31-33"] ∧
  ∃ out,
    two_digit first_loc ONone (one_table five_codes)
    = (Ok (new_loc (one_table five_codes)),
       store (one_table five_codes) (new_loc (one_table five_codes)) out) ∧
    columns out = columns five_codes ∧
    rows out = filter (λ r, two_digit_code (code r)) (rows five_codes) ∧
    rows out = filter (λ r, code r ∈ VStr <$> ["00"; "11"; "31-33"]) (rows five_codes) ∧
    has_codes out ["00"; "11"; "31-33"].
Proof.
  split; [apply one_table_lookup|]. split; [apply sample_has_naics|].
  split; [apply five_codes_has_codes|].
  apply (two_digit_five_codes (one_table five_codes) first_loc five_codes).
  - apply one_table_lookup.
  - apply sample_has_naics.
  - apply five_codes_has_codes.
Defined.

(** C6, as stated, does not hold: a code that contains '-' is not excluded
    from [three_digit] when it has three characters, nor from [four_digit]
    when it has four.  On the sample table [three_digit] keeps "1-2" and
    [four_digit] keeps "31-3"; both contain the separator. *)
Lemma short_ranges_kept :
  (λ out, column out "NAICS2012")
    <$> result_frame (three_digit first_loc ONone (one_table short_ranges))
  = Some [VStr "00"; VStr "113"; VStr "1-2"] ∧
  (λ out, column out "NAICS2012")
    <$> result_frame (four_digit first_loc ONone (one_table short_ranges))
  = Some [VStr "00"; VStr "1133"; VStr "31-3"] ∧
  range_code (VStr "1-2") ∧ range_code (VStr "31-3").
Proof. repeat split; vm_compute; reflexivity. Qed.

(** C6, amended.  For every table, [three_digit] without a county returns
    a new table with exactly the rows whose code has three characters or is
    "00", and [four_digit] one with exactly the rows whose code has four
    characters or is "00".  A code that contains '-' is kept by
    [three_digit] only if it has exactly three characters and by
    [four_digit] only if it has exactly four, so that a code with '-' of any
    other length, such as "31-33", is in neither result. *)
Theorem n_digit_spec (s : state) (self : loc) (df : DataFrame) :
  heap s !! self = Some df →
  "NAICS2012" ∈ columns df →
  three_digit self ONone s
  = (Ok (new_loc s),
     store s (new_loc s) (restrict df (λ r, n_digit_code 3 (code r)))) ∧
  four_digit self ONone s
  = (Ok (new_loc s),
     store s (new_loc s) (restrict df (λ r, n_digit_code 4 (code r)))) ∧
  ∀ r x, code r = VStr x → str_contains "-" x = true →
    (r ∈ rows (restrict df (λ r, n_digit_code 3 (code r)))
     ↔ r ∈ rows df ∧ String.length x = 3%nat) ∧
    (r ∈ rows (restrict df (λ r, n_digit_code 4 (code r)))
     ↔ r ∈ rows df ∧ String.length x = 4%nat).
Proof.
  intros Hself Hcol. split; [|split].
  - rewrite (three_digit_run s self df) by done. by apply by_county_falsy.
  - rewrite (four_digit_run s self df) by done. by apply by_county_falsy.
  - intros r x Hx Hdash. simpl. rewrite !list_elem_of_filter, Hx. simpl.
    assert (x ≠ "00") as Hne by (intros ->; discriminate).
    split; (split; [intros [[?|?] ?]; [done|done]|intros [? ?]; split; [by left|done]]).
Qed.

(** The amended C6 on the sample table with short range codes. *)
Lemma n_digit_spec_witness :
  heap (one_table short_ranges) !! first_loc = Some short_ranges ∧
  "NAICS2012" ∈ columns short_ranges ∧
  three_digit first_loc ONone (one_table short_ranges)
  = (Ok (new_loc (one_table short_ranges)),
     store (one_table short_ranges) (new_loc (one_table short_ranges))
       (restrict short_ranges (λ r, n_digit_code 3 (code r)))) ∧
  four_digit first_loc ONone (one_table short_ranges)
  = (Ok (new_loc (one_table short_ranges)),
     store (one_table short_ranges) (new_loc (one_table short_ranges))
       (restrict short_ranges (λ r, n_digit_code 4 (code r)))) ∧
  ∀ r x, code r = VStr x → str_contains "-" x = true →
    (r ∈ rows (restrict short_ranges (λ r, n_digit_code 3 (code r)))
     ↔ r ∈ rows short_ranges ∧ String.length x = 3%nat) ∧
    (r ∈ rows (restrict short_ranges (λ r, n_digit_code 4 (code r)))
     ↔ r ∈ rows short_ranges ∧ String.length x = 4%nat).
Proof.
  split; [apply one_table_lookup|]. split; [apply sample_has_naics|].
  apply (n_digit_spec (one_table short_ranges) first_loc short_ranges).
  - apply one_table_lookup.
  - apply sample_has_naics.
Defined.

(** C10.  In [two_digit], [three_digit] and [four_digit] the empty string
    and the empty list as county are treated as no county: the call equals
    the call with [None], and it returns the whole digit-level table, with
    no county filtering and no exception. *)
Theorem falsy_county_is_no_county (s : state) (self : loc) (df : DataFrame)
    (county : pyobj) :
  heap s !! self = Some df →
  "NAICS2012" ∈ columns df →
  county = OStr "" ∨ county = OList [] →
  (two_digit self county s = two_digit self ONone s ∧
   two_digit self county s
   = (Ok (new_loc s),
      store s (new_loc s) (restrict df (λ r, two_digit_code (code r))))) ∧
  (three_digit self county s = three_digit self ONone s ∧
   three_digit self county s
   = (Ok (new_loc s),
      store s (new_loc s) (restrict df (λ r, n_digit_code 3 (code r))))) ∧
  (four_digit self county s = four_digit self ONone s ∧
   four_digit self county s
   = (Ok (new_loc s),
      store s (new_loc s) (restrict df (λ r, n_digit_code 4 (code r))))).
Proof.
  intros Hself Hcol Hfalsy.
  assert (truthy county = false) as Hc by (by destruct Hfalsy as [->| ->]).
  rewrite !(two_digit_run s self df), !(three_digit_run s self df),
    !(four_digit_run s self df) by done.
  rewrite !(by_county_falsy _ county), !(by_county_falsy _ ONone) by done.
  done.
Qed.

(** C10 on the sample table, with the empty list as county. *)
Lemma falsy_county_is_no_county_witness :
  heap (one_table five_codes) !! first_loc = Some five_codes ∧
  "NAICS2012" ∈ columns five_codes ∧
  (OList [] = OStr "" ∨ OList [] = OList []) ∧
  (λ out, column out "NAICS2012")
    <$> result_frame (three_digit first_loc (OList []) (one_table five_codes))
  = Some [VStr "00"; VStr "113"].
Proof.
  split; [apply one_table_lookup|]. split; [apply sample_has_naics|].
  split; [by right|].
  destruct (falsy_county_is_no_county (one_table five_codes) first_loc five_codes
              (OList []) (one_table_lookup five_codes) sample_has_naics
              (or_intror eq_refl)) as (_ & [_ ->] & _).
  reflexivity.
Defined.

(** *** Claims on [get_county] and on what the queries leave unchanged *)

Section County.
Implicit Types (s : state) (df : DataFrame) (self : loc) (county : pyobj).

Lemma eq_mask df v :
  Pandas.getitem_mask df (eq_s (column df "county") v)
  = restrict df (λ r, county_of r = v).
Proof.
  unfold Pandas.getitem_mask, restrict. f_equal. unfold eq_s, column.
  rewrite <- list_fmap_compose. apply select_filter.
  intros r. unfold compose, county_of. apply bool_decide_eq_true.
Qed.

Lemma isin_mask df l :
  Pandas.getitem_mask df (isin (column df "county") l)
  = restrict df (λ r, county_of r ∈ l).
Proof.
  unfold Pandas.getitem_mask, restrict. f_equal. unfold isin, column.
  rewrite <- list_fmap_compose. apply select_filter.
  intros r. unfold compose, county_of. apply bool_decide_eq_true.
Qed.

Lemma county_step_new s l (f : list value → list bool) r s' :
  (c ← Exec.getattr l "county"; Exec.getitem_mask l (f c)) s = (r, s') →
  extends s s' ∧
  ∀ l', r = Ok l' → heap s !! l' = None ∧ is_Some (heap s' !! l').
Proof.
  rewrite bind_run.
  destruct (Exec.getattr l "county" s) as [[c|e] s1] eqn:E;
    apply getattr_state in E; subst s1.
  - apply getitem_mask_new.
  - intros [= <- <-]. split; [apply extends_refl|done].
Qed.

Lemma county_step_not_type_error s l (f : list value → list bool) msg s' :
  (c ← Exec.getattr l "county"; Exec.getitem_mask l (f c)) s
  ≠ (Raise (TypeError msg), s').
Proof.
  rewrite bind_run.
  destruct (Exec.getattr l "county" s) as [[c|e] s1] eqn:E.
  - unfold Exec.getitem_mask. rewrite bind_run. unfold deref.
    by destruct (heap s1 !! l).
  - intros [= -> ->]. by apply getattr_not_type_error in E.
Qed.

Lemma by_county_new d county s r s' :
  by_county d county s = (r, s') →
  extends s s' ∧
  ∀ l, r = Ok l → l = d ∨ (heap s !! l = None ∧ is_Some (heap s' !! l)).
Proof.
  unfold by_county. destruct (truthy county).
  - destruct county as [[| |]| |]; try (intros [= <- <-]; split; [apply extends_refl|done]);
      intros H; apply county_step_new in H as [? Hnew]; (split; [done|]);
      intros l' ->; right; by apply Hnew.
  - intros [= <- <-]. split; [apply extends_refl|]. intros l [= <-]. by left.
Qed.

(** A digit-level query, seen as its first table followed by the county
    step, does not mutate. *)
Lemma digits_then_county_pure s self df (P : value * gmap string value → Prop)
    `{!∀ r, Decision (P r)} county :
  heap s !! self = Some df →
  pure_query s self df
    (by_county (new_loc s) county (store s (new_loc s) (restrict df P))).
Proof.
  intros Hself.
  destruct (by_county _ _ _) as [r s'] eqn:E.
  apply by_county_new in E as [Hext Hnew].
  assert (extends s (store s (new_loc s) (restrict df P))) as Hext0
    by (split; [apply store_new_extends|done]).
  assert (extends s s') as Hext' by (eapply extends_trans; eauto).
  split; [by eapply extends_lookup|]. split; [done|].
  simpl. destruct r as [l|]; [|done].
  assert (heap s !! l = None ∧ is_Some (heap s' !! l)) as [Hl1 Hl2].
  { destruct (Hnew l eq_refl) as [->|[Hl1 Hl2]].
    - split; [apply new_loc_fresh|].
      exists (restrict df P). apply (extends_lookup _ _ _ _ Hext), store_lookup.
    - split; [|done]. exact (extends_fresh _ _ _ Hext0 Hl1). }
  split; [|done]. intros ->. congruence.
Qed.

Lemma raise_pure s self df (e : exn) :
  heap s !! self = Some df → pure_query s self df (Raise e, s).
Proof. intros H. split; [done|]. split; [apply extends_refl|done]. Qed.

Lemma alloc_pure s self df out :
  heap s !! self = Some df →
  pure_query s self df (Ok (new_loc s), store s (new_loc s) out).
Proof.
  intros H.
  assert (extends s (store s (new_loc s) out)) as Hext
    by (split; [apply store_new_extends|done]).
  split; [by eapply extends_lookup|]. split; [done|]. cbn [fst snd].
  split; [|split; [apply new_loc_fresh|rewrite store_lookup; eauto]].
  intros Heq. pose proof (new_loc_fresh s) as Hf. rewrite Heq in Hf. congruence.
Qed.

Lemma new_result_pure s self df r s' :
  heap s !! self = Some df →
  extends s s' →
  (∀ l, r = Ok l → heap s !! l = None ∧ is_Some (heap s' !! l)) →
  pure_query s self df (r, s').
Proof.
  intros Hself Hext Hnew.
  split; [by eapply extends_lookup|]. split; [done|]. cbn [fst snd].
  destruct r as [l|]; [|done].
  destruct (Hnew l eq_refl) as [Hl1 Hl2]. split; [|done]. intros ->. congruence.
Qed.

Lemma get_county_pure s self df county :
  heap s !! self = Some df → pure_query s self df (get_county self county s).
Proof.
  intros Hself. destruct (get_county self county s) as [r s'] eqn:E.
  unfold get_county in E.
  destruct county as [[| |]| |];
    try (injection E as <- <-; by apply raise_pure);
    apply county_step_new in E as [? ?]; by apply new_result_pure.
Qed.

Lemma two_digit_pure s self df county :
  heap s !! self = Some df → pure_query s self df (two_digit self county s).
Proof.
  intros Hself. destruct (decide ("NAICS2012" ∈ columns df)) as [Hc|Hc].
  - rewrite (two_digit_run s self df) by done. by apply digits_then_county_pure.
  - unfold two_digit. rewrite bind_run, (getattr_missing s self df) by done.
    by apply raise_pure.
Qed.

Lemma three_digit_pure s self df county :
  heap s !! self = Some df → pure_query s self df (three_digit self county s).
Proof.
  intros Hself. destruct (decide ("NAICS2012" ∈ columns df)) as [Hc|Hc].
  - rewrite (three_digit_run s self df) by done. by apply digits_then_county_pure.
  - unfold three_digit. rewrite bind_run, (getattr_missing s self df) by done.
    by apply raise_pure.
Qed.

Lemma four_digit_pure s self df county :
  heap s !! self = Some df → pure_query s self df (four_digit self county s).
Proof.
  intros Hself. destruct (decide ("NAICS2012" ∈ columns df)) as [Hc|Hc].
  - rewrite (four_digit_run s self df) by done. by apply digits_then_county_pure.
  - unfold four_digit. rewrite bind_run, (getattr_missing s self df) by done.
    by apply raise_pure.
Qed.

Lemma total_run s self df :
  heap s !! self = Some df →
  total self s
  = match groupby_sum df "NAICS2012" ["EMP"; "ESTAB"] with
    | Ok out => (Ok (new_loc s), store s (new_loc s) out)
    | Raise e => (Raise e, s)
    end.
Proof.
  intros Hself. unfold total. rewrite bind_run. unfold deref. rewrite Hself.
  rewrite bind_run. unfold lift. by destruct (groupby_sum _ _ _).
Qed.

Lemma total_pure s self df :
  heap s !! self = Some df → pure_query s self df (total self s).
Proof.
  intros Hself. rewrite (total_run s self df) by done.
  destruct (groupby_sum _ _ _); [by apply alloc_pure|by apply raise_pure].
Qed.

End County.

(** C4, as stated, does not hold.  A set of strings is rejected with the
    [TypeError] although the claim has it accepted, and a list whose
    elements are not strings is accepted (no row matches) although the
    claim has the call fail. *)
Lemma get_county_set_rejected :
  get_county first_loc (OSet [VStr "013"]) (one_table two_counties)
  = (Raise (TypeError "County identifier must be str"), one_table two_counties) ∧
  (λ out, column out "county")
    <$> result_frame (get_county first_loc (OList [VInt 13]) (one_table two_counties))
  = Some [].
Proof. split; vm_compute; reflexivity. Qed.

(** C4, amended.  For every table with a county column, [get_county] with
    a string returns a new table with the same columns and exactly the rows
    whose county equals the string; with a list it returns exactly the rows
    whose county is an element of the list; and the call fails with a
    [TypeError] if and only if the selector is neither a string nor a
    list. *)
Theorem get_county_spec (s : state) (self : loc) (df : DataFrame) (county : pyobj) :
  heap s !! self = Some df →
  "county" ∈ columns df →
  (∀ c, county = OStr c →
     get_county self county s
     = (Ok (new_loc s),
        store s (new_loc s) (restrict df (λ r, county_of r = VStr c))) ∧
     columns (restrict df (λ r, county_of r = VStr c)) = columns df) ∧
  (∀ l, county = OList l →
     get_county self county s
     = (Ok (new_loc s),
        store s (new_loc s) (restrict df (λ r, county_of r ∈ l)))) ∧
  ((∃ msg s', get_county self county s = (Raise (TypeError msg), s'))
   ↔ (∀ c, county ≠ OStr c) ∧ (∀ l, county ≠ OList l)).
Proof.
  intros Hself Hcol. split; [|split].
  - intros c ->. split; [|done]. unfold get_county, OStr.
    rewrite bind_run, (getattr_ok s self df), (getitem_mask_ok s self df) by done.
    by rewrite eq_mask.
  - intros l ->. unfold get_county.
    rewrite bind_run, (getattr_ok s self df), (getitem_mask_ok s self df) by done.
    by rewrite isin_mask.
  - split.
    + intros (msg & s' & H). unfold get_county in H.
      destruct county as [[| |]| |]; try done;
        by apply county_step_not_type_error in H.
    + intros [Hs Hl]. exists "County identifier must be str", s.
      destruct county as [[|c|]|l|]; try done.
      * by destruct (Hs c).
      * by destruct (Hl l).
Qed.

(** The amended C4 on the sample table with counties "013" and "015",
    asked for "013". *)
Lemma get_county_spec_witness :
  heap (one_table two_counties) !! first_loc = Some two_counties ∧
  "county" ∈ columns two_counties ∧
  (λ out, (columns out, column out "county"))
    <$> result_frame (get_county first_loc (OStr "013") (one_table two_counties))
  = Some (columns two_counties, [VStr "013"; VStr "013"]).
Proof.
  split; [apply one_table_lookup|]. split; [apply sample_has_county|].
  destruct (get_county_spec (one_table two_counties) first_loc two_counties
              (OStr "013") (one_table_lookup two_counties) sample_has_county)
    as (Hstr & _ & _).
  destruct (Hstr "013" eq_refl) as [-> _]. reflexivity.
Defined.

(** C7.  Every query leaves the table it is applied to as it was: after
    [get_county], [two_digit], [three_digit], [four_digit] and [total],
    with any argument and whether the call returns or raises, the table of
    [self] and every other table of the store are unchanged, nothing was
    sent or read, and a returned table is a new object. *)
Theorem queries_do_not_mutate (s : state) (self : loc) (df : DataFrame)
    (county : pyobj) :
  heap s !! self = Some df →
  pure_query s self df (get_county self county s) ∧
  pure_query s self df (two_digit self county s) ∧
  pure_query s self df (three_digit self county s) ∧
  pure_query s self df (four_digit self county s) ∧
  pure_query s self df (total self s).
Proof.
  intros Hself.
  split; [by apply get_county_pure|]. split; [by apply two_digit_pure|].
  split; [by apply three_digit_pure|]. split; [by apply four_digit_pure|].
  by apply total_pure.
Qed.

(** C7 on the sample table with two counties, asked for county "013". *)
Lemma queries_do_not_mutate_witness :
  heap (one_table two_counties) !! first_loc = Some two_counties ∧
  pure_query (one_table two_counties) first_loc two_counties
    (two_digit first_loc (OStr "013") (one_table two_counties)) ∧
  pure_query (one_table two_counties) first_loc two_counties
    (total first_loc (one_table two_counties)).
Proof.
  split; [apply one_table_lookup|].
  destruct (queries_do_not_mutate (one_table two_counties) first_loc two_counties
              (OStr "013") (one_table_lookup two_counties))
    as (_ & H2 & _ & _ & H5).
  by split.
Defined.

(** *** Claims on the tables of constants *)

(** C8, as stated, does not hold: the years 2009, 2010 and 2011 are mapped
    to the 2007 revision, not to the 2012 revision. *)
Lemma naics_year_2009 :
  naics_year !! 2009 = Some "NAICS2007" ∧
  naics_year !! 2009 ≠ Some "NAICS2012" ∧
  naics_year !! 2010 ≠ Some "NAICS2012" ∧
  naics_year !! 2011 ≠ Some "NAICS2012".
Proof. repeat split; vm_compute; congruence. Qed.

(** C8, amended.  [naics_year] maps every year from 2008 to 2011 to the
    label of the 2007 revision and every year from 2012 to 2014 to the label
    of the 2012 revision. *)
Theorem naics_year_spec (y : Z) :
  2008 ≤ y ≤ 2014 →
  naics_year !! y = Some (if y <=? 2011 then "NAICS2007" else "NAICS2012").
Proof.
  intros Hy.
  assert (y = 2008 ∨ y = 2009 ∨ y = 2010 ∨ y = 2011 ∨ y = 2012 ∨ y = 2013 ∨ y = 2014)
    as Hcases by lia.
  repeat (destruct Hcases as [->|Hcases]; [reflexivity|]). by subst.
Qed.

(** The amended C8 at the year 2012. *)
Lemma naics_year_spec_witness :
  2008 ≤ 2012 ≤ 2014 ∧ naics_year !! 2012 = Some "NAICS2012".
Proof. split; [lia|]. apply (naics_year_spec 2012). lia. Defined.

(** *** Claims on [total] *)

Section Total.
Implicit Types (s : state) (df : DataFrame) (self : loc).

Lemma mapR_total {A B} (f : A → result B) (g : A → B) l :
  (∀ a, f a = Ok (g a)) → mapR f l = Ok (g <$> l).
Proof.
  intros H. induction l as [|a l IH]; [done|].
  rewrite fmap_cons. cbn [mapR]. by rewrite H, IH.
Qed.

Lemma wrap64_int64 z : int64 z → wrap64 z = z.
Proof.
  unfold int64, wrap64. intros Hz.
  change (2 ^ 63) with 9223372036854775808 in *.
  change (2 ^ 64) with 18446744073709551616.
  rewrite Z.mod_small by lia. lia.
Qed.

Lemma wrap64_add_l a z : wrap64 (wrap64 a + z) = wrap64 (a + z).
Proof.
  unfold wrap64. f_equal.
  replace ((a + 2 ^ 63) mod 2 ^ 64 - 2 ^ 63 + z + 2 ^ 63)
    with ((a + 2 ^ 63) mod 2 ^ 64 + z) by lia.
  rewrite Zplus_mod_idemp_l. f_equal. lia.
Qed.

Lemma wrap64_range z : int64 (wrap64 z).
Proof.
  unfold int64, wrap64.
  change (2 ^ 63) with 9223372036854775808.
  change (2 ^ 64) with 18446744073709551616.
  pose proof (Z.mod_pos_bound (z + 9223372036854775808) 18446744073709551616).
  lia.
Qed.

(** The 64-bit sum of a run of integer cells. *)
Lemma sum_from_ints c acc (g : list (value * gmap string value)) :
  (∀ r, r ∈ g → ∃ z, cell c r = VInt z) →
  sum_from (VInt (wrap64 acc)) (cell c <$> g)
  = Ok (VInt (wrap64 (acc + sum_over c g))).
Proof.
  revert acc. induction g as [|r g IH]; intros acc H.
  - cbn. by rewrite Z.add_0_r.
  - rewrite fmap_cons. destruct (H r) as [z Hz]; [left|].
    unfold sum_over. rewrite fmap_cons. cbn [foldr].
    unfold cell_int at 1. rewrite Hz. cbn [sum_from add_cells].
    rewrite wrap64_add_l, IH by (intros r' Hr'; apply H; by right).
    unfold sum_over. by rewrite Z.add_assoc.
Qed.

Lemma sum_cells_ints c (g : list (value * gmap string value)) :
  (∀ r, r ∈ g → ∃ z, cell c r = VInt z) →
  sum_cells (cell c <$> g) = Ok (VInt (wrap64 (sum_over c g))).
Proof.
  destruct g as [|r g]; intros H; [done|].
  rewrite fmap_cons. destruct (H r) as [z Hz]; [left|].
  unfold sum_over. rewrite fmap_cons. cbn [foldr].
  unfold cell_int at 1. rewrite Hz. cbn [sum_cells].
  by rewrite sum_from_ints by (intros r' Hr'; apply H; by right).
Qed.

Lemma elem_of_group df by_ k r :
  r ∈ group df by_ k ↔ cell by_ r = k ∧ r ∈ rows df.
Proof. unfold group. by rewrite list_elem_of_filter. Qed.

Lemma elem_of_group_keys df by_ k :
  k ∈ group_keys df by_ ↔ k ≠ VNone ∧ k ∈ column df by_.
Proof.
  unfold group_keys. rewrite merge_sort_Permutation, elem_of_remove_dups.
  by rewrite list_elem_of_filter.
Qed.

Lemma NoDup_group_keys df by_ : NoDup (group_keys df by_).
Proof.
  unfold group_keys. rewrite merge_sort_Permutation. apply NoDup_remove_dups.
Qed.

(** The group of a code is made of the rows with that code. *)
Lemma group_rows_with_code df k : group df "NAICS2012" k = rows_with_code df k.
Proof. done. Qed.

(** The row of totals for the group with key [k]: 64-bit sums. *)
Lemma groupby_sum_counts df :
  "NAICS2012" ∈ columns df → "EMP" ∈ columns df → "ESTAB" ∈ columns df →
  counts_are_int df →
  groupby_sum df "NAICS2012" ["EMP"; "ESTAB"]
  = Ok {| columns := ["EMP"; "ESTAB"];
          rows := (λ k, (k, list_to_map
                    [("EMP", VInt (wrap64 (sum_over "EMP" (rows_with_code df k))));
                     ("ESTAB", VInt (wrap64 (sum_over "ESTAB" (rows_with_code df k))))]))
                  <$> group_keys df "NAICS2012" |}.
Proof.
  intros Hn He Hb Hint. unfold groupby_sum.
  rewrite decide_True by done.
  rewrite !filter_cons, filter_nil.
  rewrite !decide_False by (intros Hc; by apply Hc).
  erewrite mapR_total; [done|].
  intros k. cbn [mapR]. rewrite group_rows_with_code.
  rewrite !sum_cells_ints; [done| |].
  - intros r Hr. apply elem_of_group in Hr as [_ Hr].
    destruct (Hint r Hr) as (e & b & _ & ?). eauto.
  - intros r Hr. apply elem_of_group in Hr as [_ Hr].
    destruct (Hint r Hr) as (e & b & ? & _). eauto.
Qed.

Lemma counts_are_int64_int df : counts_are_int64 df → counts_are_int df.
Proof. intros H r Hr. destruct (H r Hr) as (e & b & ? & ? & _). eauto. Qed.

(** A table without repeated labels is determined by them. *)
Lemma singleton_keys (l : list (value * gmap string value)) k :
  NoDup l.*1 → (∀ k', k' ∈ l.*1 ↔ k' = k) → ∃ r, l = [r] ∧ r.1 = k.
Proof.
  intros Hnd Hk. destruct l as [|r [|r' l]].
  - exfalso. by apply (elem_of_nil k), Hk.
  - exists r. split; [done|]. apply Hk. cbn. left.
  - exfalso. cbn in Hnd. apply NoDup_cons in Hnd as [Hr _]. apply Hr.
    assert (r.1 = k) as -> by (apply Hk; cbn; left).
    assert (r'.1 = k) as <- by (apply Hk; cbn; right; left). left.
Qed.

End Total.

(** C3.  For every table whose [EMP] and [ESTAB] columns hold integers,
    [total] returns a new table with the two columns [EMP] and [ESTAB] (in
    some order) and with exactly one row per distinct industry code of the
    input, labelled by that code, and none for any other code (a row whose
    code cell is missing has no code and forms no group); the [EMP] and
    [ESTAB] cells of the row of a code are the sums of these columns over
    the input rows with that code.  The integers of a column, and the sums
    that [total] takes, are 64-bit integers: the statement is for counts
    in that range whose sums per code are in that range. *)
Theorem total_spec (s : state) (self : loc) (df : DataFrame) :
  heap s !! self = Some df →
  "NAICS2012" ∈ columns df → "EMP" ∈ columns df → "ESTAB" ∈ columns df →
  counts_are_int64 df →
  sums_fit df →
  ∃ out,
    total self s = (Ok (new_loc s), store s (new_loc s) out) ∧
    columns out ≡ₚ ["EMP"; "ESTAB"] ∧
    NoDup (rows out).*1 ∧
    (∀ k, k ∈ (rows out).*1 ↔ k ≠ VNone ∧ k ∈ codes df) ∧
    ∀ r, r ∈ rows out →
      cell "EMP" r = VInt (sum_over "EMP" (rows_with_code df r.1)) ∧
      cell "ESTAB" r = VInt (sum_over "ESTAB" (rows_with_code df r.1)).
Proof.
  intros Hself Hn He Hb Hint Hfit.
  eexists. split.
  { rewrite (total_run s self df) by done.
    by rewrite groupby_sum_counts by auto using counts_are_int64_int. }
  cbn [columns rows].
  assert (∀ (f : value → gmap string value) (l : list value),
            ((λ k, (k, f k)) <$> l).*1 = l) as Hfst.
  { intros f l. rewrite <- list_fmap_compose. by rewrite <- (list_fmap_id l) at 2. }
  rewrite Hfst.
  split; [done|]. split; [apply NoDup_group_keys|].
  split; [apply elem_of_group_keys|].
  intros r Hr. apply list_elem_of_fmap in Hr as (k & -> & Hk).
  apply elem_of_group_keys in Hk as [_ Hk].
  destruct (Hfit k Hk) as [Hemp Hestab]. cbn [fst].
  split.
  - change (cell "EMP" _)
      with (VInt (wrap64 (sum_over "EMP" (rows_with_code df k)))).
    by rewrite wrap64_int64.
  - change (cell "ESTAB" _)
      with (VInt (wrap64 (sum_over "ESTAB" (rows_with_code df k)))).
    by rewrite wrap64_int64.
Qed.

(** C3 on the example of the specification: two rows with code "11",
    employment 5 and 7, establishments 1 and 2.  The table returned has
    one row, for "11", with employment 12 and 3 establishments. *)
Lemma total_spec_witness :
  heap (one_table same_code) !! first_loc = Some same_code ∧
  counts_are_int64 same_code ∧
  sums_fit same_code ∧
  ∃ out r,
    total first_loc (one_table same_code)
    = (Ok (new_loc (one_table same_code)),
       store (one_table same_code) (new_loc (one_table same_code)) out) ∧
    columns out ≡ₚ ["EMP"; "ESTAB"] ∧
    rows out = [r] ∧
    r.1 = VStr "11" ∧ cell "EMP" r = VInt 12 ∧ cell "ESTAB" r = VInt 3.
Proof.
  assert (counts_are_int64 same_code) as Hint.
  { intros r Hr. unfold same_code in Hr. cbn [rows] in Hr.
    repeat (apply elem_of_cons in Hr as [->|Hr]); [| |by apply elem_of_nil in Hr];
      eexists _, _; (split; [reflexivity|]); (split; [reflexivity|]);
      split; by vm_compute. }
  assert (sums_fit same_code) as Hfit.
  { intros k Hk. unfold same_code in Hk. cbn in Hk.
    repeat (apply elem_of_cons in Hk as [->|Hk]); [| |by apply elem_of_nil in Hk];
      split; by vm_compute. }
  split; [apply one_table_lookup|]. split; [exact Hint|]. split; [exact Hfit|].
  destruct (total_spec (one_table same_code) first_loc same_code
              (one_table_lookup same_code)) as (out & Hrun & Hcols & Hnd & Hkeys & Hsums);
    [| | |exact Hint|exact Hfit|].
  1-3: unfold same_code, sample_columns; cbn [columns]; in_list.
  destruct (singleton_keys (rows out) (VStr "11") Hnd) as (r & Hrows & Hr).
  { intros k. rewrite Hkeys. unfold same_code. cbn. split.
    - intros [_ Hk].
      repeat (apply elem_of_cons in Hk as [->|Hk]; [done|]).
      by apply elem_of_nil in Hk.
    - intros ->. split; [done|left]. }
  exists out, r. split; [exact Hrun|]. split; [exact Hcols|]. split; [exact Hrows|].
  split; [exact Hr|].
  destruct (Hsums r) as [Hemp Hestab]; [rewrite Hrows; left|].
  rewrite Hr in Hemp, Hestab. split; [exact Hemp|exact Hestab].
Defined.

(** The same call, evaluated: one row, for "11", with employment 12 and 3
    establishments; and on two counties with the codes "00" and "11" each,
    one row per code, in the order of the codes. *)
Example total_two_counties :
  (λ out, rows out) <$> result_frame (total first_loc (one_table two_counties))
  = Some [(VStr "00", {["EMP" := VInt 170; "ESTAB" := VInt 18]});
          (VStr "11", {["EMP" := VInt 12; "ESTAB" := VInt 3]})].
Proof. vm_compute. reflexivity. Qed.

Example total_same_code :
  (λ out, rows out) <$> result_frame (total first_loc (one_table same_code))
  = Some [(VStr "11", {["EMP" := VInt 12; "ESTAB" := VInt 3]})].
Proof. vm_compute. reflexivity. Qed.

(** Outside that range the sum wraps around: two rows of 2^62 employees
    total -2^63.  And the cells of a text column are concatenated. *)
Example total_large_counts :
  (λ out, rows out) <$> result_frame (total first_loc (one_table large_counts))
  = Some [(VStr "11", {["EMP" := VInt (- 2 ^ 63); "ESTAB" := VInt 3]})].
Proof. vm_compute. reflexivity. Qed.

Example total_text_counts :
  (λ out, rows out) <$> result_frame (total first_loc (one_table text_counts))
  = Some [(VStr "11", {["EMP" := VStr "CropForest"; "ESTAB" := VInt 3]})].
Proof. vm_compute. reflexivity. Qed.

(** *** Claims on the constructor: configuration errors *)

Section Init.
Implicit Types (w : world) (a : args) (s : state) (df : DataFrame).

Lemma lift_bind_run {A B} (r : result A) (k : A → M B) s :
  (lift r ≫= k) s = match r with
                    | Ok x => k x s
                    | Raise e => (Raise e, s)
                    end.
Proof. rewrite bind_run. unfold lift. by destruct r. Qed.

Lemma requests_get_run w url s :
  requests_get w url s
  = match http w url with
    | HttpOk header data =>
        (Ok (header, data), {| heap := heap s; trace := (trace s ++ [EvGet url])%list |})
    | HttpError err =>
        (Raise (SystemExit 1),
         {| heap := heap s; trace := ((trace s ++ [EvGet url]) ++ [EvPrint err])%list |})
    end.
Proof.
  unfold requests_get. rewrite bind_run. unfold emit.
  destruct (http w url); [|done]. by rewrite bind_run.
Qed.

Lemma read_csv_run w path s :
  read_csv w path s
  = match csv_file w path with
    | Some df => (Ok df, {| heap := heap s; trace := (trace s ++ [EvReadCsv path])%list |})
    | None => (Raise (IOError path),
               {| heap := heap s; trace := (trace s ++ [EvReadCsv path])%list |})
    end.
Proof.
  unfold read_csv. rewrite bind_run. unfold emit. by destruct (csv_file w path).
Qed.

Lemma init_api_run w a s :
  read_from a = "api" → truthy_opt_str (key a) = true →
  __init__ w a s = (requests_get w (url_of a) ≫= after_request a) s.
Proof. intros Hr Hk. unfold __init__. by rewrite Hr, Hk. Qed.

Lemma init_csv_run w a s :
  read_from a = "csv" → truthy_opt_str (filepath a) = true →
  __init__ w a s = (read_csv w (default "" (filepath a)) ≫= alloc) s.
Proof. intros Hr Hk. unfold __init__. by rewrite Hr, Hk. Qed.

Lemma after_request_trace a req s r s' :
  after_request a req s = (r, s') → trace s' = trace s.
Proof.
  unfold after_request. rewrite lift_bind_run.
  destruct (cast_columns _ _) as [results|]; [|by intros [= <- <-]].
  rewrite bind_run. destruct (impute_emp a).
  - rewrite lift_bind_run. destruct (apply_rows _ _); [|by intros [= <- <-]].
    cbn. rewrite lift_bind_run. destruct (drop _ _); by intros [= <- <-].
  - cbn. rewrite lift_bind_run. destruct (drop _ _); by intros [= <- <-].
Qed.

Lemma app_cons_neq {A} (l k : list A) x : (l ++ x :: k)%list ≠ l.
Proof.
  intros H. apply (f_equal length) in H. rewrite length_app in H.
  simpl in H. lia.
Qed.

(** With a good configuration the first thing the constructor does is a
    request or a file read. *)
Lemma init_good_configuration_io w a s r s' :
  ¬ bad_configuration a → __init__ w a s = (r, s') → trace s' ≠ trace s.
Proof.
  intros Hgood Hrun. unfold bad_configuration in Hgood.
  destruct (decide (read_from a = "api")) as [Hapi|Hapi].
  - destruct (truthy_opt_str (key a)) eqn:Hk; [|tauto].
    rewrite init_api_run, bind_run, requests_get_run in Hrun by done.
    destruct (http w (url_of a)).
    + injection Hrun as <- <-. cbn [trace]. rewrite <- app_assoc. apply app_cons_neq.
    + apply after_request_trace in Hrun. rewrite Hrun. cbn [trace]. apply app_cons_neq.
  - destruct (decide (read_from a = "csv")) as [Hcsv|Hcsv]; [|tauto].
    destruct (truthy_opt_str (filepath a)) eqn:Hk; [|tauto].
    rewrite init_csv_run, bind_run, read_csv_run in Hrun by done.
    destruct (csv_file w _); injection Hrun as <- <-; cbn [trace]; apply app_cons_neq.
Qed.

Lemma bad_configuration_dec a : Decision (bad_configuration a).
Proof. unfold bad_configuration. apply _. Qed.

(** **** The conversions to [int] *)

Lemma cast_column_ok df c df' :
  cast_column df c = Ok df' →
  c ∈ columns df ∧ columns df' = columns df ∧
  length (rows df') = length (rows df) ∧
  ∀ i r, rows df !! i = Some r →
    ∃ z, py_int (cell c r) = Ok z ∧ rows df' !! i = Some (r.1, <[c := VInt z]> r.2).
Proof.
  unfold cast_column, getitem. intros H.
  destruct (decide (c ∈ columns df)) as [Hc|]; [|done]. cbn in H.
  destruct (astype_int (column df c)) as [s'|] eqn:Hs; [|done]. cbn in H.
  injection H as <-. unfold astype_int in Hs.
  pose proof (mapR_length _ _ _ Hs) as Hlen. unfold column in Hlen.
  rewrite length_fmap in Hlen.
  split; [done|]. split; [unfold setitem; cbn; by rewrite decide_True|].
  split.
  - unfold setitem. cbn. rewrite length_zip_with. lia.
  - intros i r Hi.
    assert (column df c !! i = Some (cell c r)) as Hci
      by (unfold column; by rewrite list_lookup_fmap, Hi).
    destruct (mapR_lookup _ _ _ _ _ Hs Hci) as (b & Hb & Hcast).
    destruct (py_int (cell c r)) as [z|]; [|done]. injection Hcast as <-.
    exists z. split; [done|]. unfold setitem. cbn.
    by rewrite lookup_zip_with, Hi, Hb.
Qed.

Lemma cast_column_succeeds df c :
  c ∈ columns df →
  (∀ r, r ∈ rows df → ∃ z, py_int (cell c r) = Ok z) →
  ∃ df', cast_column df c = Ok df'.
Proof.
  intros Hc Hint. unfold cast_column, getitem. rewrite decide_True by done. cbn.
  destruct (mapR_all_ok (λ v, VInt <$> py_int v) (column df c)) as [s' Hs'].
  - intros v Hv. apply elem_of_column in Hv as (r & Hr & <-).
    destruct (Hint r Hr) as [z ->]. by eexists.
  - unfold astype_int. rewrite Hs'. cbn. eauto.
Qed.

Lemma cell_insert_eq c v (r : value * gmap string value) :
  cell c (r.1, <[c := v]> r.2) = v.
Proof. unfold cell. cbn. by rewrite lookup_insert_eq. Qed.

Lemma cell_insert_ne c c' v (r : value * gmap string value) :
  c ≠ c' → cell c' (r.1, <[c := v]> r.2) = cell c' r.
Proof. intros H. unfold cell. cbn. by rewrite lookup_insert_ne. Qed.

Lemma cell_delete_ne c c' (r : value * gmap string value) :
  c ≠ c' → cell c' (r.1, delete c r.2) = cell c' r.
Proof. intros H. unfold cell. cbn. by rewrite lookup_delete_ne. Qed.

(** After both conversions: the columns are those of the response, and
    each row has its two counts as integers and its other cells as they
    were. *)
Lemma cast_columns_ok df df1 :
  cast_columns df cbp_dtypes_keys = Ok df1 →
  "EMP" ∈ columns df ∧ "ESTAB" ∈ columns df ∧ columns df1 = columns df ∧
  length (rows df1) = length (rows df) ∧
  ∀ i r, rows df !! i = Some r →
    ∃ e b r1, py_int (cell "EMP" r) = Ok e ∧ py_int (cell "ESTAB" r) = Ok b ∧
      rows df1 !! i = Some r1 ∧ r1.1 = r.1 ∧
      cell "EMP" r1 = VInt e ∧ cell "ESTAB" r1 = VInt b ∧
      ∀ c, c ≠ "EMP" → c ≠ "ESTAB" → cell c r1 = cell c r.
Proof.
  unfold cbp_dtypes_keys. cbn [cast_columns]. intros H.
  destruct (cast_column df "ESTAB") as [dfa|] eqn:Ha; [|done]. cbn in H.
  destruct (cast_column dfa "EMP") as [dfb|] eqn:Hb; [|done]. cbn in H.
  injection H as <-.
  apply cast_column_ok in Ha as (Hc1 & Hcols1 & Hlen1 & Hrows1).
  apply cast_column_ok in Hb as (Hc2 & Hcols2 & Hlen2 & Hrows2).
  rewrite Hcols1 in Hc2.
  split; [done|]. split; [done|]. split; [congruence|]. split; [congruence|].
  intros i r Hi.
  destruct (Hrows1 i r Hi) as (b & Hpb & Hi1).
  destruct (Hrows2 i _ Hi1) as (e & Hpe & Hi2).
  rewrite cell_insert_ne in Hpe by done.
  eexists e, b, _. split; [done|]. split; [done|]. split; [exact Hi2|].
  split; [done|]. split; [apply cell_insert_eq|].
  split.
  - rewrite cell_insert_ne by done. apply (cell_insert_eq "ESTAB" (VInt b) r).
  - intros c Hc Hc'. rewrite cell_insert_ne by done.
    by rewrite (cell_insert_ne "ESTAB" c (VInt b) r).
Qed.

(** The order in which the two columns are converted does not matter for
    the table that results, only for the exception reported when both
    conversions fail. *)
Lemma cast_columns_swap df c1 c2 df1 :
  c1 ≠ c2 →
  cast_columns df [c1; c2] = Ok df1 → cast_columns df [c2; c1] = Ok df1.
Proof.
  intros Hne. cbn [cast_columns]. intros H.
  destruct (cast_column df c1) as [dfa|] eqn:Ha; [|done]. cbn in H.
  destruct (cast_column dfa c2) as [dfb|] eqn:Hb; [|done]. cbn in H.
  injection H as <-.
  apply cast_column_ok in Ha as (Hc1 & Hcols1 & Hlen1 & Hrows1).
  apply cast_column_ok in Hb as (Hc2 & Hcols2 & Hlen2 & Hrows2).
  rewrite Hcols1 in Hc2.
  assert (∀ i r, rows df !! i = Some r →
            ∃ z1 z2, py_int (cell c1 r) = Ok z1 ∧ py_int (cell c2 r) = Ok z2 ∧
              rows dfb !! i = Some (r.1, <[c2 := VInt z2]> (<[c1 := VInt z1]> r.2)))
    as Hrows.
  { intros i r Hi. destruct (Hrows1 i r Hi) as (z1 & Hz1 & Hi1).
    destruct (Hrows2 i _ Hi1) as (z2 & Hz2 & Hi2).
    rewrite cell_insert_ne in Hz2 by done. eauto. }
  destruct (cast_column_succeeds df c2) as [dfa' Ha']; [done| |].
  { intros r Hr. apply list_elem_of_lookup in Hr as [i Hi].
    destruct (Hrows i r Hi) as (_ & z2 & _ & ? & _). eauto. }
  rewrite Ha'. cbn.
  apply cast_column_ok in Ha' as (_ & Hcols1' & Hlen1' & Hrows1').
  destruct (cast_column_succeeds dfa' c1) as [dfb' Hb']; [by rewrite Hcols1'| |].
  { intros r' Hr'. apply list_elem_of_lookup in Hr' as [i Hi'].
    destruct (lookup_lt_is_Some_2 (rows df) i) as [r Hi].
    { rewrite <- Hlen1'. by eapply lookup_lt_Some. }
    destruct (Hrows1' i r Hi) as (z2 & _ & Hi1'). rewrite Hi' in Hi1'.
    injection Hi1' as ->. rewrite cell_insert_ne by done.
    destruct (Hrows i r Hi) as (z1 & _ & ? & _). eauto. }
  rewrite Hb'. cbn. f_equal.
  apply cast_column_ok in Hb' as (_ & Hcols2' & Hlen2' & Hrows2').
  destruct dfb as [colsb rowsb], dfb' as [colsb' rowsb']. cbn in *.
  f_equal; [congruence|].
  apply list_eq. intros i.
  destruct (rows df !! i) as [r|] eqn:Hi.
  - destruct (Hrows i r Hi) as (z1 & z2 & Hz1 & Hz2 & ->).
    destruct (Hrows1' i r Hi) as (z2' & Hz2' & Hi1').
    destruct (Hrows2' i _ Hi1') as (z1' & Hz1' & ->).
    rewrite cell_insert_ne in Hz1' by done.
    assert (z1' = z1) as -> by congruence. assert (z2' = z2) as -> by congruence.
    cbn [fst snd]. by rewrite insert_insert_ne.
  - apply lookup_ge_None in Hi.
    rewrite (proj2 (lookup_ge_None rowsb i)), (proj2 (lookup_ge_None rowsb' i));
      [done|lia..].
Qed.

(** **** Imputation and the drop of the flag column *)

Lemma dict_getitem_ok (d : gmap string Z) k n :
  dict_getitem d k = Ok n → ∃ c, k = VStr c ∧ d !! c = Some n.
Proof.
  unfold dict_getitem. destruct k as [|c|]; [done| |done].
  destruct (d !! c) eqn:E; [|done]. intros [= <-]. eauto.
Qed.

Lemma dict_getitem_raise (d : gmap string Z) k e :
  dict_getitem d k = Raise e → e = KeyError k.
Proof.
  unfold dict_getitem. destruct k as [|c|]; [by intros [= <-]| |by intros [= <-]].
  destruct (d !! c); [done|by intros [= <-]].
Qed.

Lemma impute_ok df r v :
  impute df r = Ok v →
  "EMP_F" ∈ columns df ∧
  if truthy_value (cell "EMP_F" r) then
    ∃ c n, cell "EMP_F" r = VStr c ∧ emp_imputation !! c = Some n ∧ v = VInt n
  else v = cell "EMP" r.
Proof.
  unfold impute, row_getattr.
  destruct (decide ("EMP_F" ∈ columns df)); [|done]. cbn.
  destruct (truthy_value (cell "EMP_F" r)).
  - destruct (dict_getitem emp_imputation (cell "EMP_F" r)) as [n|] eqn:E;
      cbn; [|done].
    intros [= <-]. split; [done|].
    apply dict_getitem_ok in E as (c & ? & ?). eauto.
  - destruct (decide ("EMP" ∈ columns df)); [|done]. by intros [= <-].
Qed.

Lemma impute_raise df r e :
  "EMP_F" ∈ columns df → "EMP" ∈ columns df →
  impute df r = Raise e →
  e = KeyError (cell "EMP_F" r) ∧ truthy_value (cell "EMP_F" r) = true ∧
  ¬ known_flag (cell "EMP_F" r).
Proof.
  intros Hf He. unfold impute, row_getattr. rewrite !decide_True by done. cbn.
  destruct (truthy_value (cell "EMP_F" r)) eqn:Ht; [|done].
  destruct (dict_getitem emp_imputation (cell "EMP_F" r)) as [n|e'] eqn:E;
    cbn; [done|].
  intros [= <-]. split; [by eapply dict_getitem_raise|]. split; [done|].
  intros [Hfalse|(c & Hc & [n Hn])]; [congruence|].
  rewrite Hc in E. cbn in E. by rewrite Hn in E.
Qed.

Lemma impute_known df r :
  "EMP_F" ∈ columns df → "EMP" ∈ columns df →
  known_flag (cell "EMP_F" r) → ∃ v, impute df r = Ok v.
Proof.
  intros Hf He Hk.
  destruct (impute df r) as [v|e] eqn:E; [eauto|].
  apply impute_raise in E as (_ & _ & Hn); done.
Qed.

Lemma impute_unknown df r :
  "EMP_F" ∈ columns df →
  truthy_value (cell "EMP_F" r) = true → ¬ known_flag (cell "EMP_F" r) →
  impute df r = Raise (KeyError (cell "EMP_F" r)).
Proof.
  intros Hf Ht Hn. unfold impute, row_getattr.
  rewrite (decide_True (P := "EMP_F" ∈ columns df)) by done. cbn.
  rewrite Ht.
  destruct (dict_getitem emp_imputation (cell "EMP_F" r)) as [n|e] eqn:E.
  - apply dict_getitem_ok in E as (c & Hc & Hs). destruct Hn. right. eauto.
  - apply dict_getitem_raise in E as ->. done.
Qed.

Lemma drop_ok df c df' :
  drop df c = Ok df' →
  c ∈ columns df ∧ (c ∉ columns df') ∧
  rows df' = (λ r, (r.1, delete c r.2)) <$> rows df.
Proof.
  unfold drop. destruct (decide (c ∈ columns df)); [|done]. intros [= <-].
  split; [done|]. split; [|done]. cbn. rewrite list_elem_of_filter. tauto.
Qed.

Lemma setitem_columns df c (ser : list value) :
  c ∈ columns df → columns (setitem df c ser) = columns df.
Proof. intros H. unfold setitem. cbn. by rewrite decide_True. Qed.

Lemma setitem_lookup df c (ser : list value) i r v :
  rows df !! i = Some r → ser !! i = Some v →
  rows (setitem df c ser) !! i = Some (r.1, <[c := v]> r.2).
Proof. intros Hr Hv. unfold setitem. cbn. by rewrite lookup_zip_with, Hr, Hv. Qed.

Lemma of_table_lookup header data i vs :
  data !! i = Some vs → rows (of_table header data) !! i = Some (table_row header i vs).
Proof. intros H. unfold of_table. cbn. by rewrite list_lookup_imap, H. Qed.

(** **** The constructor in API mode, after the request *)

Lemma cast_columns_succeeds df :
  "EMP" ∈ columns df → "ESTAB" ∈ columns df →
  (∀ r, r ∈ rows df →
     ∃ e b, py_int (cell "EMP" r) = Ok e ∧ py_int (cell "ESTAB" r) = Ok b) →
  ∃ df1, cast_columns df cbp_dtypes_keys = Ok df1.
Proof.
  intros He Hb Hint. unfold cbp_dtypes_keys. cbn [cast_columns].
  destruct (cast_column_succeeds df "ESTAB") as [dfa Ha]; [done| |].
  { intros r Hr. destruct (Hint r Hr) as (e & b & _ & ?). eauto. }
  rewrite Ha. cbn.
  pose proof (cast_column_ok _ _ _ Ha) as (_ & Hcols & Hlen & Hrows).
  destruct (cast_column_succeeds dfa "EMP") as [dfb Hdfb]; [by rewrite Hcols| |].
  { intros r' Hr'. apply list_elem_of_lookup in Hr' as [i Hi].
    destruct (lookup_lt_is_Some_2 (rows df) i) as [r Hr].
    { rewrite <- Hlen. by eapply lookup_lt_Some. }
    destruct (Hrows i r Hr) as (b & _ & Hi'). rewrite Hi in Hi'.
    injection Hi' as ->. rewrite cell_insert_ne by done.
    destruct (Hint r) as (e & _ & ? & _); [by eapply list_elem_of_lookup_2|]. eauto. }
  rewrite Hdfb. cbn. eauto.
Qed.

Lemma of_table_converts header data :
  "EMP" ∈ header → "ESTAB" ∈ header → counts_convert header data →
  ∃ df1, cast_columns (of_table header data) cbp_dtypes_keys = Ok df1.
Proof.
  intros He Hb Hconv. apply cast_columns_succeeds; [done|done|].
  intros r Hr. unfold of_table in Hr. cbn in Hr.
  apply elem_of_lookup_imap in Hr as (i & vs & -> & Hi). by eapply Hconv.
Qed.

Lemma after_request_ok a header data s l s' :
  impute_emp a = true →
  after_request a (header, data) s = (Ok l, s') →
  ∃ df, heap s' !! l = Some df ∧ ("EMP_F" ∉ columns df) ∧
    length (rows df) = length data ∧
    ∀ i vs, data !! i = Some vs →
      ∃ r, rows df !! i = Some r ∧ imputed (table_row header i vs) r.
Proof.
  intros Himp. unfold after_request, read_json. cbn [fst snd].
  rewrite lift_bind_run, Himp.
  destruct (cast_columns _ _) as [df1|] eqn:Hcast; [|done].
  rewrite bind_run, lift_bind_run.
  destruct (apply_rows (impute df1) df1) as [emp|] eqn:Hemp; [|done].
  cbn [mret M_ret]. rewrite lift_bind_run.
  destruct (drop _ _) as [df3|] eqn:Hdrop; [|done].
  unfold alloc. intros [= <- <-].
  apply cast_columns_ok in Hcast as (He & Hb & Hcols & Hlen & Hrows).
  apply drop_ok in Hdrop as (_ & Hnot & Hrows3).
  unfold apply_rows in Hemp. pose proof (mapR_length _ _ _ Hemp) as Hlen_emp.
  exists df3. split; [apply store_lookup|]. split; [done|]. split.
  - rewrite Hrows3, length_fmap. unfold setitem. cbn.
    rewrite length_zip_with, Hlen_emp, Hlen. unfold of_table. cbn.
    rewrite length_imap. lia.
  - intros i vs Hi. apply (of_table_lookup header) in Hi.
    destruct (Hrows _ _ Hi) as (e & b & r1 & Hpe & Hpb & Hi1 & _ & Hce & _ & Hother).
    destruct (mapR_lookup _ _ _ _ _ Hemp Hi1) as (v & Hv & Himpute).
    pose proof (setitem_lookup df1 "EMP" emp i r1 v Hi1 Hv) as Hi2.
    exists (r1.1, delete "EMP_F" (<["EMP" := v]> r1.2)). split.
    { by rewrite Hrows3, list_lookup_fmap, Hi2. }
    assert (cell "EMP" (r1.1, delete "EMP_F" (<["EMP" := v]> r1.2)) = v) as Hcell.
    { unfold cell. cbn [fst snd].
      by rewrite lookup_delete_ne, lookup_insert_eq by done. }
    apply impute_ok in Himpute as [_ Himpute].
    rewrite (Hother "EMP_F") in Himpute by done.
    unfold imputed. cbn zeta. rewrite Hcell.
    destruct (truthy_value (cell "EMP_F" (table_row header i vs))).
    + destruct Himpute as (c & n & ? & ? & ->). eauto.
    + subst v. eauto.
Qed.

Lemma after_request_unknown_flag a header data s i vs :
  impute_emp a = true →
  "EMP_F" ∈ header →
  (∃ df1, cast_columns (of_table header data) cbp_dtypes_keys = Ok df1) →
  data !! i = Some vs →
  truthy_value (cell "EMP_F" (table_row header i vs)) = true →
  ¬ known_flag (cell "EMP_F" (table_row header i vs)) →
  ∃ k, after_request a (header, data) s = (Raise (KeyError k), s) ∧
       truthy_value k = true ∧ ¬ known_flag k.
Proof.
  intros Himp Hf [df1 Hcast] Hi Ht Hunknown.
  unfold after_request, read_json. cbn [fst snd].
  rewrite lift_bind_run, Himp, Hcast, bind_run, lift_bind_run.
  apply cast_columns_ok in Hcast as (He & Hb & Hcols & Hlen & Hrows).
  cbn [columns of_table] in He, Hb, Hcols.
  apply (of_table_lookup header) in Hi.
  destruct (Hrows _ _ Hi) as (e & b & r1 & _ & _ & Hi1 & _ & _ & _ & Hother).
  destruct (apply_rows (impute df1) df1) as [emp|e'] eqn:Hemp; unfold apply_rows in Hemp.
  - destruct (mapR_lookup _ _ _ _ _ Hemp Hi1) as (v & _ & Himpute).
    rewrite impute_unknown in Himpute; [done|by rewrite Hcols| |];
      by rewrite (Hother "EMP_F").
  - apply mapR_raise in Hemp as (r' & _ & Hr').
    apply impute_raise in Hr' as (-> & ? & ?); [eauto|by rewrite Hcols..].
Qed.

Lemma after_request_succeeds a header data s :
  "EMP" ∈ header → "ESTAB" ∈ header → "EMP_F" ∈ header →
  counts_convert header data →
  (∀ i vs, data !! i = Some vs → known_flag (cell "EMP_F" (table_row header i vs))) →
  ∃ l s', after_request a (header, data) s = (Ok l, s').
Proof.
  intros He Hb Hf Hconv Hknown.
  destruct (of_table_converts header data He Hb Hconv) as [df1 Hcast].
  unfold after_request, read_json. cbn [fst snd].
  rewrite lift_bind_run, Hcast, bind_run.
  apply cast_columns_ok in Hcast as (_ & _ & Hcols & Hlen & Hrows).
  cbn [columns of_table] in Hcols.
  assert (∀ df2, columns df2 = header → ∃ df3, drop df2 "EMP_F" = Ok df3) as Hdrop.
  { intros df2 Hc. unfold drop. rewrite decide_True by (by rewrite Hc). eauto. }
  destruct (impute_emp a).
  - rewrite lift_bind_run.
    destruct (mapR_all_ok (impute df1) (rows df1)) as [emp Hemp].
    { intros r1 Hr1. apply impute_known; [by rewrite Hcols..|].
      apply list_elem_of_lookup in Hr1 as [i Hi1].
      destruct (lookup_lt_is_Some_2 (rows (of_table header data)) i) as [r Hr].
      { rewrite <- Hlen. by eapply lookup_lt_Some. }
      pose proof Hr as Hr0. unfold of_table in Hr0. cbn in Hr0.
      rewrite list_lookup_imap in Hr0.
      destruct (data !! i) as [vs|] eqn:Hvs; [|done]. injection Hr0 as <-.
      destruct (Hrows _ _ Hr) as (e & b & r1' & _ & _ & Hi1' & _ & _ & _ & Hother).
      rewrite Hi1 in Hi1'. injection Hi1' as <-.
      rewrite (Hother "EMP_F") by done. by eapply Hknown. }
    unfold apply_rows. rewrite Hemp. cbn [mret M_ret]. rewrite lift_bind_run.
    destruct (Hdrop (setitem df1 "EMP" emp)) as [df3 ->].
    { rewrite setitem_columns; by rewrite Hcols. }
    unfold alloc. eauto.
  - cbn [mret M_ret]. rewrite lift_bind_run.
    destruct (Hdrop df1 Hcols) as [df3 ->]. unfold alloc. eauto.
Qed.

Lemma init_api_succeeds w a s header data :
  read_from a = "api" → truthy_opt_str (key a) = true →
  http w (url_of a) = HttpOk header data →
  "EMP" ∈ header → "ESTAB" ∈ header → "EMP_F" ∈ header →
  counts_convert header data →
  (∀ i vs, data !! i = Some vs → known_flag (cell "EMP_F" (table_row header i vs))) →
  ∃ l s', __init__ w a s = (Ok l, s').
Proof.
  intros Hr Hk Hhttp He Hb Hf Hconv Hknown.
  rewrite init_api_run, bind_run, requests_get_run, Hhttp by done.
  by apply after_request_succeeds.
Qed.

Lemma emp_imputation_entries c n :
  emp_imputation !! c = Some n
  ↔ (c, n) ∈ [("a", 10); ("b", 60); ("c", 175); ("e", 375); ("f", 750);
              ("g", 1750); ("h", 3750); ("i", 7500); ("j", 17500);
              ("k", 37500); ("l", 75000); ("m", 110000)].
Proof.
  unfold emp_imputation. rewrite <- elem_of_list_to_map; [done|].
  cbn. apply (bool_decide_unpack _). by vm_compute.
Qed.

End Init.

(** C5.  The constructor fails with a [ValueError] before any request or
    file read exactly when the source is the API and no key is given, the
    source is a CSV file and no path is given, or the source is neither
    (a key or path that is [None] or empty counts as not given). *)
Theorem init_configuration_error (w : world) (a : args) (s : state) :
  (∃ msg s', __init__ w a s = (Raise (ValueError msg), s') ∧ trace s' = trace s)
  ↔ bad_configuration a.
Proof.
  split.
  - intros (msg & s' & Hrun & Htrace).
    destruct (bad_configuration_dec a) as [|Hgood]; [done|].
    by apply (init_good_configuration_io w a s _ s' Hgood) in Hrun.
  - unfold bad_configuration, __init__. intros [[-> ->]|[[-> ->]|[Hapi Hcsv]]].
    + cbn. eauto.
    + cbn. eauto.
    + apply String.eqb_neq in Hapi, Hcsv. rewrite Hapi, Hcsv. eauto.
Qed.

(** *** Claims on the constructor: imputation *)

(** C1.  When the constructor returns in API mode with imputation enabled,
    the table it built has no column [EMP_F], it has one row for each data
    row of the response, in order, and the employment of each row is the
    entry of the imputation table for the flag of the data row when that
    flag is not empty, and the employment of the data row itself when the
    flag is empty.  The imputation table is a=10, b=60, c=175, e=375,
    f=750, g=1750, h=3750, i=7500, j=17500, k=37500, l=75000, m=110000. *)
Theorem init_api_imputes (w : world) (a : args) (s : state) (l : loc) (s' : state) :
  read_from a = "api" →
  impute_emp a = true →
  __init__ w a s = (Ok l, s') →
  (∀ c n, emp_imputation !! c = Some n
          ↔ (c, n) ∈ [("a", 10); ("b", 60); ("c", 175); ("e", 375); ("f", 750);
                      ("g", 1750); ("h", 3750); ("i", 7500); ("j", 17500);
                      ("k", 37500); ("l", 75000); ("m", 110000)]) ∧
  ∃ header data df,
    http w (url_of a) = HttpOk header data ∧
    heap s' !! l = Some df ∧
    ("EMP_F" ∉ columns df) ∧
    length (rows df) = length data ∧
    ∀ i vs, data !! i = Some vs →
      ∃ r, rows df !! i = Some r ∧ imputed (table_row header i vs) r.
Proof.
  intros Hr Himp Hrun. split; [apply emp_imputation_entries|].
  destruct (truthy_opt_str (key a)) eqn:Hk.
  - rewrite init_api_run, bind_run, requests_get_run in Hrun by done.
    destruct (http w (url_of a)) as [|header data] eqn:Hhttp; [done|].
    exists header, data.
    destruct (after_request_ok _ _ _ _ _ _ Himp Hrun) as (df & ? & ? & ? & ?).
    by exists df.
  - unfold __init__ in Hrun. by rewrite Hr, Hk in Hrun.
Qed.

(** C1 on a sample response: one row without a flag, one with flag "a"
    and one with flag "m". *)
Lemma init_api_imputes_witness :
  read_from sample_args = "api" ∧
  impute_emp sample_args = true ∧
  ∃ l s',
    __init__ (api_world sample_data) sample_args empty_state = (Ok l, s') ∧
    ∃ header data df,
      http (api_world sample_data) (url_of sample_args) = HttpOk header data ∧
      heap s' !! l = Some df ∧
      ("EMP_F" ∉ columns df) ∧
      length (rows df) = length data ∧
      ∀ i vs, data !! i = Some vs →
        ∃ r, rows df !! i = Some r ∧ imputed (table_row header i vs) r.
Proof.
  split; [reflexivity|]. split; [reflexivity|].
  destruct (__init__ (api_world sample_data) sample_args empty_state)
    as [[l|e] s'] eqn:Hrun; [|by vm_compute in Hrun].
  exists l, s'. split; [reflexivity|].
  exact (proj2 (init_api_imputes (api_world sample_data) sample_args empty_state
                  l s' eq_refl eq_refl Hrun)).
Defined.

(** The sample construction, evaluated: the flag column is gone and the
    employment column holds 1200, 10 and 110000. *)
Example init_sample_run :
  (λ out, (columns out, column out "EMP", column out "ESTAB"))
    <$> result_frame (__init__ (api_world sample_data) sample_args empty_state)
  = Some (["EMP"; "ESTAB"; "NAICS2012"; "NAICS2012_TTL"; "GEO_TTL"; "state"; "county"],
          [VInt 1200; VInt 10; VInt 110000], [VInt 85; VInt 3; VInt 1]).
Proof. vm_compute. reflexivity. Qed.

(** C9.  The imputation lookup is partial.  In API mode with imputation
    enabled, when the response has the three columns [EMP], [ESTAB] and
    [EMP_F], its counts convert to integers, and some row has a flag that
    is not empty and is not one of the twelve keys of the imputation table,
    the constructor raises the [KeyError] of the lookup and builds no
    table. *)
Theorem init_unknown_flag_raises (w : world) (a : args) (s : state)
    (header : list string) (data : list (list value)) (i : nat) (vs : list value) :
  read_from a = "api" →
  truthy_opt_str (key a) = true →
  impute_emp a = true →
  http w (url_of a) = HttpOk header data →
  "EMP" ∈ header → "ESTAB" ∈ header → "EMP_F" ∈ header →
  counts_convert header data →
  data !! i = Some vs →
  truthy_value (cell "EMP_F" (table_row header i vs)) = true →
  ¬ known_flag (cell "EMP_F" (table_row header i vs)) →
  ∃ k s', __init__ w a s = (Raise (KeyError k), s') ∧
          truthy_value k = true ∧ ¬ known_flag k ∧ heap s' = heap s.
Proof.
  intros Hr Hk Himp Hhttp He Hb Hf Hconv Hi Ht Hunknown.
  rewrite init_api_run, bind_run, requests_get_run, Hhttp by done.
  destruct (after_request_unknown_flag a header data
              {| heap := heap s; trace := (trace s ++ [EvGet (url_of a)])%list |}
              i vs Himp Hf (of_table_converts header data He Hb Hconv) Hi Ht Hunknown)
    as (k & -> & ? & ?).
  by eexists k, _.
Qed.

Lemma flag_d_unknown : ¬ known_flag (VStr "d").
Proof.
  intros [Hfalsy|(c & Hc & [n Hn])]; [done|].
  injection Hc as <-. by vm_compute in Hn.
Qed.

Lemma flag_d_data_converts : counts_convert sample_header flag_d_data.
Proof.
  intros i vs Hi. unfold flag_d_data in Hi.
  destruct i as [|[|i]]; cbn in Hi; [| |done];
    injection Hi as <-; eexists _, _; split; reflexivity.
Qed.

(** C9 on a response whose second row has the flag "d". *)
Lemma init_unknown_flag_raises_witness :
  flag_d_data !! 1%nat = Some flag_d_row ∧
  cell "EMP_F" (table_row sample_header 1 flag_d_row) = VStr "d" ∧
  ¬ known_flag (VStr "d") ∧
  ∃ k s',
    __init__ (api_world flag_d_data) sample_args empty_state
    = (Raise (KeyError k), s') ∧
    truthy_value k = true ∧ ¬ known_flag k ∧ heap s' = heap empty_state.
Proof.
  split; [reflexivity|]. split; [reflexivity|].
  split; [exact flag_d_unknown|].
  apply (init_unknown_flag_raises (api_world flag_d_data) sample_args empty_state
           sample_header flag_d_data 1 flag_d_row); try reflexivity.
  - unfold sample_header. in_list.
  - unfold sample_header. in_list.
  - unfold sample_header. in_list.
  - exact flag_d_data_converts.
  - exact flag_d_unknown.
Defined.

(** The same construction, evaluated, and its like with the flag "D": the
    exception is the [KeyError] of the flag, after the one request. *)
Example init_flag_d_run :
  __init__ (api_world flag_d_data) sample_args empty_state
  = (Raise (KeyError (VStr "d")),
     {| heap := ∅; trace := [EvGet (url_of sample_args)] |}).
Proof. vm_compute. reflexivity. Qed.

Example init_flag_upper_d_run :
  (__init__
     (api_world [[VStr "0"; VStr "D"; VStr "3"; VStr "11"; VStr "Agriculture";
                  VStr "Alpine County, California"; VStr "06"; VStr "003"]])
     sample_args empty_state).1
  = Raise (KeyError (VStr "D")).
Proof. vm_compute. reflexivity. Qed.

Example url_of_sample :
  url_of sample_args
  = "http://api.census.gov/data/2014/cbp?get=EMP,EMP_F,ESTAB,NAICS2012,NAICS2012_TTL,GEO_TTL&for=county:*&in=state:06&key=KEY".
Proof. reflexivity. Qed.

(** Without a key nothing is requested. *)
Example init_no_key :
  __init__ (api_world sample_data) (default_args "06") empty_state
  = (Raise (ValueError
       "If reading from Census API, must provide API key in the key parameter"),
     empty_state).
Proof. reflexivity. Qed.

(** *** Further properties of the constructor *)

Section InitMore.
Implicit Types (w : world) (a : args) (s : state) (df : DataFrame).

Lemma cell_delete_eq_none c (m : gmap string value) (i : value) :
  (i, delete c m).2 !! c = None.
Proof. cbn. apply lookup_delete_eq. Qed.

Lemma drop_columns df c df' :
  drop df c = Ok df' → columns df' = filter (λ x, x ≠ c) (columns df).
Proof. unfold drop. case_decide; [|done]. by intros [= <-]. Qed.

(** What the steps after the request return, and what they built. *)
Lemma after_request_table a header data s l s' :
  after_request a (header, data) s = (Ok l, s') →
  l = new_loc s ∧
  ∃ df, s' = store s l df ∧
    columns df = filter (λ c, c ≠ "EMP_F") header ∧
    good_response a header data ∧
    length (rows df) = length data ∧
    ∀ i vs, data !! i = Some vs →
      ∃ r, rows df !! i = Some r ∧ built_from (table_row header i vs) r ∧
        if impute_emp a then imputed (table_row header i vs) r
        else ∃ e, py_int (cell "EMP" (table_row header i vs)) = Ok e ∧
                  cell "EMP" r = VInt e.
Proof.
  unfold after_request, read_json. cbn [fst snd]. rewrite lift_bind_run.
  destruct (cast_columns _ _) as [df1|] eqn:Hcast; [|done].
  rewrite bind_run.
  apply cast_columns_ok in Hcast as (He & Hb & Hcols & Hlen & Hrows).
  cbn [columns of_table] in He, Hb, Hcols.
  assert (length (rows df1) = length data) as Hlen'.
  { rewrite Hlen. unfold of_table. cbn. by rewrite length_imap. }
  assert (counts_convert header data) as Hconv.
  { intros i vs Hi. apply (of_table_lookup header) in Hi.
    destruct (Hrows _ _ Hi) as (e & b & _ & ? & ? & _). eauto. }
  destruct (impute_emp a) eqn:Himp.
  - rewrite lift_bind_run.
    destruct (apply_rows (impute df1) df1) as [emp|] eqn:Hemp; [|done].
    cbn [mret M_ret]. rewrite lift_bind_run.
    destruct (drop _ _) as [df3|] eqn:Hdrop; [|done].
    unfold alloc. intros [= <- <-]. split; [done|].
    pose proof (drop_columns _ _ _ Hdrop) as Hcols3.
    apply drop_ok in Hdrop as (Hf & _ & Hrows3).
    rewrite setitem_columns in Hf by (by rewrite Hcols). rewrite Hcols in Hf.
    unfold apply_rows in Hemp. pose proof (mapR_length _ _ _ Hemp) as Hlen_emp.
    assert (∀ i vs, data !! i = Some vs →
              ∃ r1 v, rows df1 !! i = Some r1 ∧ emp !! i = Some v ∧
                impute df1 r1 = Ok v ∧ r1.1 = (table_row header i vs).1 ∧
                (∃ b, py_int (cell "ESTAB" (table_row header i vs)) = Ok b ∧
                      cell "ESTAB" r1 = VInt b) ∧
                ∀ c, c ≠ "EMP" → c ≠ "ESTAB" → cell c r1 = cell c (table_row header i vs))
      as Hrow.
    { intros i vs Hi. apply (of_table_lookup header) in Hi.
      destruct (Hrows _ _ Hi) as (e & b & r1 & _ & ? & Hi1 & ? & _ & ? & ?).
      destruct (mapR_lookup _ _ _ _ _ Hemp Hi1) as (v & ? & ?).
      exists r1, v. eauto 10. }
    exists df3. split; [done|]. split.
    { rewrite Hcols3, setitem_columns; by rewrite Hcols. }
    split.
    { split; [done|]. split; [done|]. split; [done|]. split; [done|].
      intros _ i vs Hi. destruct (Hrow i vs Hi) as (r1 & v & _ & _ & Hv & _ & _ & Hother).
      apply impute_ok in Hv as [_ Hv]. rewrite (Hother "EMP_F") in Hv by done.
      unfold known_flag.
      destruct (truthy_value (cell "EMP_F" (table_row header i vs))); [|by left].
      destruct Hv as (c & n & ? & ? & _). right. eauto. }
    split.
    { rewrite Hrows3, length_fmap. unfold setitem. cbn.
      rewrite length_zip_with. lia. }
    intros i vs Hi. destruct (Hrow i vs Hi) as (r1 & v & Hi1 & Hv & Himpute & Hlab & Hest & Hother).
    pose proof (setitem_lookup df1 "EMP" emp i r1 v Hi1 Hv) as Hi2.
    exists (r1.1, delete "EMP_F" (<["EMP" := v]> r1.2)). split.
    { by rewrite Hrows3, list_lookup_fmap, Hi2. }
    split.
    { split; [done|]. split; [apply lookup_delete_eq|]. split.
      - destruct Hest as (b & ? & Hb'). exists b. split; [done|].
        rewrite <- Hb'. unfold cell. cbn [snd].
        by rewrite lookup_delete_ne, lookup_insert_ne.
      - intros c ? ? ?. rewrite <- Hother by done. unfold cell. cbn [snd].
        by rewrite lookup_delete_ne, lookup_insert_ne. }
    assert (cell "EMP" (r1.1, delete "EMP_F" (<["EMP" := v]> r1.2)) = v) as Hcell.
    { unfold cell. cbn [snd]. by rewrite lookup_delete_ne, lookup_insert_eq. }
    apply impute_ok in Himpute as [_ Himpute].
    rewrite (Hother "EMP_F") in Himpute by done.
    unfold imputed. cbn zeta. rewrite Hcell.
    destruct (truthy_value (cell "EMP_F" (table_row header i vs))).
    + destruct Himpute as (c & n & ? & ? & ->). eauto.
    + subst v. apply (of_table_lookup header) in Hi.
      destruct (Hrows _ _ Hi) as (e & b & r1' & ? & _ & Hi1' & _ & ? & _).
      rewrite Hi1 in Hi1'. injection Hi1' as <-. eauto.
  - cbn [mret M_ret]. rewrite lift_bind_run.
    destruct (drop _ _) as [df3|] eqn:Hdrop; [|done].
    unfold alloc. intros [= <- <-]. split; [done|].
    pose proof (drop_columns _ _ _ Hdrop) as Hcols3.
    apply drop_ok in Hdrop as (Hf & _ & Hrows3).
    rewrite Hcols in Hf.
    exists df3. split; [done|]. split; [by rewrite Hcols3, Hcols|].
    split.
    { split; [done|]. split; [done|]. split; [done|]. split; [done|]. intros Ht. congruence. }
    split; [by rewrite Hrows3, length_fmap|].
    intros i vs Hi. apply (of_table_lookup header) in Hi.
    destruct (Hrows _ _ Hi) as (e & b & r1 & ? & ? & Hi1 & ? & He1 & Hb1 & Hother).
    exists (r1.1, delete "EMP_F" r1.2). split.
    { by rewrite Hrows3, list_lookup_fmap, Hi1. }
    split.
    { split; [done|]. split; [apply lookup_delete_eq|]. split.
      - exists b. split; [done|]. rewrite <- Hb1. unfold cell. cbn [snd].
        by rewrite lookup_delete_ne.
      - intros c ? ? ?. rewrite <- Hother by done. unfold cell. cbn [snd].
        by rewrite lookup_delete_ne. }
    exists e. split; [done|]. rewrite <- He1. unfold cell. cbn [snd].
    by rewrite lookup_delete_ne.
Qed.

Lemma after_request_raise a req s e s' :
  after_request a req s = (Raise e, s') → s' = s.
Proof.
  unfold after_request. rewrite lift_bind_run.
  destruct (cast_columns _ _) as [results|]; [|by intros [= _ <-]].
  rewrite bind_run. destruct (impute_emp a).
  - rewrite lift_bind_run. destruct (apply_rows _ _); [|by intros [= _ <-]].
    cbn [mret M_ret]. rewrite lift_bind_run. destruct (drop _ _); [done|by intros [= _ <-]].
  - cbn [mret M_ret]. rewrite lift_bind_run. destruct (drop _ _); [done|by intros [= _ <-]].
Qed.

Lemma after_request_good a header data s :
  good_response a header data → ∃ l s', after_request a (header, data) s = (Ok l, s').
Proof.
  intros (He & Hb & Hf & Hconv & Hknown).
  destruct (impute_emp a) eqn:Himp.
  - apply after_request_succeeds; auto.
  - destruct (of_table_converts header data He Hb Hconv) as [df1 Hcast].
    unfold after_request, read_json. cbn [fst snd].
    rewrite lift_bind_run, Hcast, bind_run, Himp. cbn [mret M_ret].
    rewrite lift_bind_run.
    apply cast_columns_ok in Hcast as (_ & _ & Hcols & _).
    cbn [columns of_table] in Hcols.
    unfold drop. rewrite decide_True by (by rewrite Hcols). unfold alloc. eauto.
Qed.

End InitMore.

(** X1.  In API mode with a key, when the server answers the request with
    an HTTP error, the constructor prints the error and exits with status 1:
    one request was sent, the error was printed, and no table was built. *)
Theorem init_http_error (w : world) (a : args) (s : state) (err : string) :
  read_from a = "api" →
  truthy_opt_str (key a) = true →
  http w (url_of a) = HttpError err →
  __init__ w a s
  = (Raise (SystemExit 1),
     after_event (after_event s (EvGet (url_of a))) (EvPrint err)).
Proof.
  intros Hr Hk Hhttp.
  by rewrite init_api_run, bind_run, requests_get_run, Hhttp.
Qed.

(** X1 on a world whose API answers with status 404. *)
Lemma init_http_error_witness :
  read_from sample_args = "api" ∧
  truthy_opt_str (key sample_args) = true ∧
  http error_world (url_of sample_args) = HttpError "404 Client Error: Not Found" ∧
  __init__ error_world sample_args empty_state
  = (Raise (SystemExit 1),
     after_event (after_event empty_state (EvGet (url_of sample_args)))
       (EvPrint "404 Client Error: Not Found")).
Proof.
  split; [reflexivity|]. split; [reflexivity|]. split; [reflexivity|].
  by apply (init_http_error error_world sample_args empty_state).
Defined.

(** X2.  Whatever its arguments and whatever the world answers, the
    constructor does at most one thing to the outside world before it
    returns or raises: nothing at all, or one request in API mode (followed
    by the print of the error and the exit when the answer is an HTTP
    error), or one read of the given file in CSV mode.  It never does
    both, and it never repeats a request. *)
Theorem init_io_once (w : world) (a : args) (s : state) :
  ∃ evs,
    trace (__init__ w a s).2 = (trace s ++ evs)%list ∧
    (evs = [] ∨
     (read_from a = "api" ∧ evs = [EvGet (url_of a)]) ∨
     (read_from a = "api" ∧
      ∃ err, http w (url_of a) = HttpError err ∧
             evs = [EvGet (url_of a); EvPrint err] ∧
             (__init__ w a s).1 = Raise (SystemExit 1)) ∨
     (read_from a = "csv" ∧
      ∃ path, filepath a = Some path ∧ evs = [EvReadCsv path])).
Proof.
  destruct (bad_configuration_dec a) as [Hbad|Hgood].
  - exists []. split; [|by left]. rewrite app_nil_r.
    unfold bad_configuration in Hbad. unfold __init__.
    destruct Hbad as [[-> ->]|[[-> ->]|[Hapi Hcsv]]]; [done|done|].
    apply String.eqb_neq in Hapi, Hcsv. by rewrite Hapi, Hcsv.
  - unfold bad_configuration in Hgood.
    destruct (decide (read_from a = "api")) as [Hapi|Hapi].
    + destruct (truthy_opt_str (key a)) eqn:Hk; [|tauto].
      rewrite init_api_run, bind_run, requests_get_run by done.
      destruct (http w (url_of a)) as [err|header data] eqn:Hhttp.
      * exists [EvGet (url_of a); EvPrint err]. split.
        { cbn [snd trace]. by rewrite <- app_assoc. }
        right. right. left. split; [done|]. by exists err.
      * exists [EvGet (url_of a)]. split; [|by right; left].
        destruct (after_request a (header, data) _) as [r s'] eqn:Hrun.
        apply after_request_trace in Hrun. cbn [snd]. by rewrite Hrun.
    + destruct (decide (read_from a = "csv")) as [Hcsv|Hcsv]; [|tauto].
      destruct (truthy_opt_str (filepath a)) eqn:Hk; [|tauto].
      rewrite (init_csv_run w a s Hcsv Hk), bind_run, read_csv_run.
      destruct (filepath a) as [path|] eqn:Hpath; [|discriminate Hk].
      exists [EvReadCsv path]. split.
      * change (default "" (Some path)) with path.
        destruct (csv_file w path); reflexivity.
      * right. right. right. split; [done|]. by exists path.
Qed.

(** X3.  The constructor builds all of its table or nothing: when it
    raises, for whatever reason, the store is as it was; when it returns,
    the store has exactly one more object, the returned one, at a location
    that was free, and every table that existed is unchanged. *)
Theorem init_all_or_nothing (w : world) (a : args) (s : state) :
  match __init__ w a s with
  | (Ok l, s') => heap s !! l = None ∧ ∃ df, heap s' = <[l := df]> (heap s)
  | (Raise _, s') => heap s' = heap s
  end.
Proof.
  destruct (bad_configuration_dec a) as [Hbad|Hgood].
  - unfold bad_configuration in Hbad. unfold __init__.
    destruct Hbad as [[-> ->]|[[-> ->]|[Hapi Hcsv]]]; [done|done|].
    apply String.eqb_neq in Hapi, Hcsv. by rewrite Hapi, Hcsv.
  - unfold bad_configuration in Hgood.
    destruct (decide (read_from a = "api")) as [Hapi|Hapi].
    + destruct (truthy_opt_str (key a)) eqn:Hk; [|tauto].
      rewrite init_api_run, bind_run, requests_get_run by done.
      destruct (http w (url_of a)) as [err|header data]; [done|].
      destruct (after_request a (header, data) _) as [[l|e] s'] eqn:Hrun.
      * apply after_request_table in Hrun as (-> & df & -> & _).
        split; [exact (new_loc_fresh s)|]. by exists df.
      * by apply after_request_raise in Hrun as ->.
    + destruct (decide (read_from a = "csv")) as [Hcsv|Hcsv]; [|tauto].
      destruct (truthy_opt_str (filepath a)) eqn:Hk; [|tauto].
      rewrite (init_csv_run w a s Hcsv Hk), bind_run, read_csv_run.
      destruct (csv_file w _) as [df|]; [|done].
      split; [exact (new_loc_fresh s)|]. by exists df.
Qed.

(** X4.  In API mode with a key and an answer that is not an HTTP error,
    the constructor returns a table if and only if the response has the
    columns [EMP], [ESTAB] and [EMP_F], the [EMP] and [ESTAB] cells of
    every row convert to integers and, when imputation is enabled, every
    flag is empty or a key of the imputation table.  In particular a
    request for variables without [EMP_F] never yields a table, with or
    without imputation.

    The statement is for the responses on which the reader and the
    conversion of pandas do what [read_json] and [astype_int] say: the
    labels are distinct and every row is complete and holds a text, so
    that it is read as sent; the counts fit in 64 bits; and there is at
    least one row (what [DataFrame.apply] returns for a table without rows
    depends on the version of pandas). *)
Theorem init_api_returns_iff (w : world) (a : args) (s : state)
    (header : list string) (data : list (list value)) :
  read_from a = "api" →
  truthy_opt_str (key a) = true →
  http w (url_of a) = HttpOk header data →
  read_as_sent header data →
  counts_fit header data →
  data ≠ [] →
  (∃ l s', __init__ w a s = (Ok l, s')) ↔ good_response a header data.
Proof.
  intros Hr Hk Hhttp _ _ _.
  rewrite init_api_run, bind_run, requests_get_run, Hhttp by done. split.
  - intros (l & s' & Hrun).
    by apply after_request_table in Hrun as (_ & df & _ & _ & ? & _).
  - apply after_request_good.
Qed.

Lemma sample_read_as_sent : read_as_sent sample_header sample_data.
Proof.
  split; [apply (bool_decide_unpack _); by vm_compute|].
  unfold sample_data. repeat constructor.
Qed.

Lemma sample_counts_fit : counts_fit sample_header sample_data.
Proof.
  intros i vs c z Hi Hc Hz. unfold sample_data in Hi.
  destruct i as [|[|[|i]]]; cbn in Hi; [| | |done]; injection Hi as <-;
    repeat (apply elem_of_cons in Hc as [->|Hc]);
    try (by apply elem_of_nil in Hc);
    vm_compute in Hz; injection Hz as <-; split; by vm_compute.
Qed.

Lemma sample_good_response : good_response sample_args sample_header sample_data.
Proof.
  split; [unfold sample_header; in_list|].
  split; [unfold sample_header; in_list|].
  split; [unfold sample_header; in_list|].
  split.
  - intros i vs Hi. unfold sample_data in Hi.
    destruct i as [|[|[|i]]]; cbn in Hi; [| | |done];
      injection Hi as <-; eexists _, _; split; reflexivity.
  - intros _ i vs Hi. unfold sample_data in Hi.
    destruct i as [|[|[|i]]]; cbn in Hi; [| | |done]; injection Hi as <-.
    + by left.
    + right. exists "a". split; [reflexivity|]. by exists 10.
    + right. exists "m". split; [reflexivity|]. by exists 110000.
Qed.

(** X4 on the sample response: it has the three columns, its counts
    convert and its flags are known, and a table is built. *)
Lemma init_api_returns_iff_witness :
  read_from sample_args = "api" ∧
  truthy_opt_str (key sample_args) = true ∧
  read_as_sent sample_header sample_data ∧
  counts_fit sample_header sample_data ∧
  sample_data ≠ [] ∧
  good_response sample_args sample_header sample_data ∧
  ∃ l s', __init__ (api_world sample_data) sample_args empty_state = (Ok l, s').
Proof.
  split; [reflexivity|]. split; [reflexivity|].
  split; [exact sample_read_as_sent|]. split; [exact sample_counts_fit|].
  split; [discriminate|]. split; [exact sample_good_response|].
  apply (init_api_returns_iff (api_world sample_data) sample_args empty_state
           sample_header sample_data eq_refl eq_refl eq_refl
           sample_read_as_sent sample_counts_fit);
    [discriminate|exact sample_good_response].
Defined.

(** Without the flag column in the response no table is built, and the
    failure is that of the drop of the column. *)
Example init_without_flag_column :
  (__init__ {| http := λ _, HttpOk ["EMP"; "ESTAB"; "NAICS2012_TTL"]
                              [[VStr "5"; VStr "1"; VStr "Agriculture"]];
               csv_file := λ _, None |} no_impute_args empty_state).1
  = Raise (ValueError "labels ['EMP_F'] not contained in axis").
Proof. vm_compute. reflexivity. Qed.

(** X5.  The table the constructor returns in API mode has the columns of
    the response in their order, without [EMP_F], and one row per data row,
    in order.  Each row keeps the label of its data row (the rows are
    numbered from 1), has no flag cell, has its establishments converted to
    an integer, and has every cell outside [EMP], [ESTAB] and [EMP_F]
    exactly as the API sent it.  Without imputation its employment is the
    employment sent, converted to an integer, whatever the flag.

    The statement is for a response that is read as sent: distinct labels,
    and every row complete and holding a text.  (A row in which every cell
    reads as a number is turned into numbers by the reader, codes such as
    "003" included.) *)
Theorem init_api_table (w : world) (a : args) (s : state) (l : loc) (s' : state) :
  read_from a = "api" →
  (∀ header data, http w (url_of a) = HttpOk header data →
                  read_as_sent header data) →
  __init__ w a s = (Ok l, s') →
  ∃ header data df,
    http w (url_of a) = HttpOk header data ∧
    heap s' !! l = Some df ∧
    columns df = filter (λ c, c ≠ "EMP_F") header ∧
    length (rows df) = length data ∧
    ∀ i vs, data !! i = Some vs →
      ∃ r, rows df !! i = Some r ∧
        r.1 = VInt (Z.of_nat i + 1) ∧
        built_from (table_row header i vs) r ∧
        (impute_emp a = false →
         ∃ e, py_int (cell "EMP" (table_row header i vs)) = Ok e ∧
              cell "EMP" r = VInt e).
Proof.
  intros Hr _ Hrun.
  destruct (truthy_opt_str (key a)) eqn:Hk;
    [|unfold __init__ in Hrun; by rewrite Hr, Hk in Hrun].
  rewrite init_api_run, bind_run, requests_get_run in Hrun by done.
  destruct (http w (url_of a)) as [|header data] eqn:Hhttp; [done|].
  apply after_request_table in Hrun as (-> & df & -> & Hcols & _ & Hlen & Hrows).
  exists header, data, df. split; [done|]. split; [apply store_lookup|].
  split; [done|]. split; [done|].
  intros i vs Hi. destruct (Hrows i vs Hi) as (r & Hri & Hbuilt & Hemp).
  exists r. split; [done|]. split.
  { destruct Hbuilt as [-> _]. cbn. f_equal. lia. }
  split; [done|]. intros Himp. by rewrite Himp in Hemp.
Qed.

(** X5 on the sample response, without imputation. *)
Lemma init_api_table_witness :
  read_from no_impute_args = "api" ∧
  read_as_sent sample_header sample_data ∧
  ∃ l s',
    __init__ (api_world sample_data) no_impute_args empty_state = (Ok l, s') ∧
    ∃ header data df,
      http (api_world sample_data) (url_of no_impute_args) = HttpOk header data ∧
      heap s' !! l = Some df ∧
      columns df = filter (λ c, c ≠ "EMP_F") header ∧
      length (rows df) = length data ∧
      ∀ i vs, data !! i = Some vs →
        ∃ r, rows df !! i = Some r ∧
          r.1 = VInt (Z.of_nat i + 1) ∧
          built_from (table_row header i vs) r ∧
          (impute_emp no_impute_args = false →
           ∃ e, py_int (cell "EMP" (table_row header i vs)) = Ok e ∧
                cell "EMP" r = VInt e).
Proof.
  split; [reflexivity|]. split; [exact sample_read_as_sent|].
  destruct (__init__ (api_world sample_data) no_impute_args empty_state)
    as [[l|e] s'] eqn:Hrun; [|by vm_compute in Hrun].
  exists l, s'. split; [reflexivity|].
  apply (init_api_table (api_world sample_data) no_impute_args empty_state
           l s' eq_refl); [|exact Hrun].
  intros header data [= <- <-]. exact sample_read_as_sent.
Defined.

(** The same construction, evaluated: the flagged rows keep the employment
    the API sent. *)
Example init_no_impute_run :
  (λ out, (columns out, column out "EMP", fst <$> rows out))
    <$> result_frame (__init__ (api_world sample_data) no_impute_args empty_state)
  = Some (["EMP"; "ESTAB"; "NAICS2012"; "NAICS2012_TTL"; "GEO_TTL"; "state"; "county"],
          [VInt 1200; VInt 0; VInt 0], [VInt 1; VInt 2; VInt 3]).
Proof. vm_compute. reflexivity. Qed.

(** X6.  In CSV mode with a path, the constructor reads that file once and
    the new object is the table exactly as it was read: nothing is
    converted, nothing is imputed and a flag column stays, whatever
    [impute_emp], [key], [variables], [year] and [state_fips] are.  A file
    that cannot be read raises the I/O error and no table is built. *)
Theorem init_csv_as_read (w : world) (a : args) (s : state) (path : string) :
  read_from a = "csv" →
  filepath a = Some path →
  path ≠ "" →
  __init__ w a s
  = match csv_file w path with
    | Some df =>
        (Ok (new_loc s),
         store (after_event s (EvReadCsv path)) (new_loc s) df)
    | None => (Raise (IOError path), after_event s (EvReadCsv path))
    end.
Proof.
  intros Hr Hpath Hne.
  assert (truthy_opt_str (filepath a) = true) as Hk.
  { rewrite Hpath. cbn. apply negb_true_iff. by apply String.eqb_neq. }
  rewrite (init_csv_run w a s Hr Hk), bind_run, read_csv_run, Hpath.
  change (default "" (Some path)) with path.
  by destruct (csv_file w path).
Qed.

(** X6 on a file whose table still has its flag column, with imputation
    asked for: the flag column and the employment 0 are kept. *)
Lemma init_csv_as_read_witness :
  read_from csv_args = "csv" ∧
  filepath csv_args = Some "cbp.csv" ∧
  "cbp.csv" ≠ "" ∧
  impute_emp csv_args = true ∧
  result_frame (__init__ csv_world csv_args empty_state) = Some csv_table.
Proof.
  split; [reflexivity|]. split; [reflexivity|]. split; [done|].
  split; [reflexivity|].
  rewrite (init_csv_as_read csv_world csv_args empty_state "cbp.csv"
             eq_refl eq_refl ltac:(done)).
  reflexivity.
Defined.

(** *** Further properties of the queries *)

Section QueriesMore.
Implicit Types (s : state) (df : DataFrame) (self : loc) (county : pyobj).

Lemma restrict_ext df (P Q : value * gmap string value → Prop)
    `{!∀ r, Decision (P r)} `{!∀ r, Decision (Q r)} :
  (∀ r, P r ↔ Q r) → restrict df P = restrict df Q.
Proof. intros Hiff. unfold restrict. f_equal. by apply list_filter_iff. Qed.

Lemma restrict_restrict df (P Q : value * gmap string value → Prop)
    `{!∀ r, Decision (P r)} `{!∀ r, Decision (Q r)} :
  restrict (restrict df P) Q = restrict df (λ r, P r ∧ Q r).
Proof.
  unfold restrict. cbn [columns rows]. f_equal.
  rewrite list_filter_filter. apply list_filter_iff. tauto.
Qed.

Lemma filter_none {A} (P : A → Prop) `{!∀ a, Decision (P a)} (l : list A) :
  (∀ a, ¬ P a) → filter P l = [].
Proof.
  intros Hnone. induction l as [|a l IH]; [done|].
  rewrite filter_cons, decide_False by apply Hnone. done.
Qed.

Lemma select_sublist {A} (l : list A) (mask : list bool) :
  select l mask `sublist_of` l.
Proof.
  revert mask. induction l as [|a l IH]; intros [|b mask]; cbn [select];
    try apply sublist_nil_l.
  destruct b; [by apply sublist_skip|by apply sublist_cons].
Qed.

Lemma result_frame_alloc s out :
  result_frame (Ok (new_loc s), store s (new_loc s) out) = Some out.
Proof. cbn [result_frame]. apply store_lookup. Qed.

Lemma by_county_run d dfd county s :
  heap s !! d = Some dfd → "county" ∈ columns dfd →
  truthy county = true → str_or_list county →
  by_county d county s
  = (Ok (new_loc s), store s (new_loc s) (restrict dfd (county_matches county))).
Proof.
  intros Hd Hc Ht Hsl. unfold by_county. rewrite Ht.
  destruct Hsl as [[c ->]|[l ->]]; unfold OStr.
  - rewrite bind_run, (getattr_ok s d dfd), (getitem_mask_ok s d dfd) by done.
    by rewrite eq_mask.
  - rewrite bind_run, (getattr_ok s d dfd), (getitem_mask_ok s d dfd) by done.
    by rewrite isin_mask.
Qed.

Lemma by_county_type_error_iff d county s :
  (∃ msg s', by_county d county s = (Raise (TypeError msg), s'))
  ↔ truthy county = true ∧ ¬ str_or_list county.
Proof.
  unfold by_county, str_or_list. split.
  - intros (msg & s' & H). destruct (truthy county) eqn:Ht; [|done].
    split; [done|].
    destruct county as [[| |]| |];
      try (by apply county_step_not_type_error in H);
      intros [[c' Hc]|[l' Hl]]; discriminate.
  - intros [Ht Hn]. rewrite Ht.
    destruct county as [[|c|]|l|]; try (by eexists _, _);
      destruct Hn; unfold OStr; eauto.
Qed.

Lemma county_step_frame d dfd (f : list value → list bool) s out :
  heap s !! d = Some dfd →
  result_frame ((c ← Exec.getattr d "county"; Exec.getitem_mask d (f c)) s) = Some out →
  columns out = columns dfd ∧ rows out `sublist_of` rows dfd.
Proof.
  intros Hd. rewrite bind_run.
  destruct (decide ("county" ∈ columns dfd)) as [Hc|Hc].
  - rewrite (getattr_ok s d dfd), (getitem_mask_ok s d dfd) by done.
    rewrite result_frame_alloc. intros [= <-]. split; [done|].
    cbn [rows Pandas.getitem_mask]. apply select_sublist.
  - by rewrite (getattr_missing s d dfd).
Qed.

Lemma by_county_frame d dfd county s out :
  heap s !! d = Some dfd →
  result_frame (by_county d county s) = Some out →
  columns out = columns dfd ∧ rows out `sublist_of` rows dfd.
Proof.
  intros Hd. unfold by_county. destruct (truthy county).
  - destruct county as [[| |]| |]; try done; by apply county_step_frame.
  - cbn [result_frame mret M_ret]. rewrite Hd. by intros [= <-].
Qed.

Lemma digits_frame s df (P : value * gmap string value → Prop)
    `{!∀ r, Decision (P r)} county out :
  result_frame (by_county (new_loc s) county (store s (new_loc s) (restrict df P)))
  = Some out →
  columns out = columns df ∧ rows out `sublist_of` rows df.
Proof.
  intros Hout. apply (by_county_frame _ (restrict df P)) in Hout as [Hc Hr];
    [|apply store_lookup].
  split; [done|]. etrans; [exact Hr|]. apply sublist_filter.
Qed.

End QueriesMore.

(** X7.  With a county that is a non-empty string or a non-empty list, on a
    table that has the columns [NAICS2012] and [county], each digit-level
    query returns exactly the rows at its level whose county is the string,
    or is an element of the list, with the columns of the table. *)
Theorem digit_with_county (s : state) (self : loc) (df : DataFrame) (county : pyobj) :
  heap s !! self = Some df →
  "NAICS2012" ∈ columns df →
  "county" ∈ columns df →
  truthy county = true →
  str_or_list county →
  result_frame (two_digit self county s)
  = Some (restrict df (λ r, two_digit_code (code r) ∧ county_matches county r)) ∧
  result_frame (three_digit self county s)
  = Some (restrict df (λ r, n_digit_code 3 (code r) ∧ county_matches county r)) ∧
  result_frame (four_digit self county s)
  = Some (restrict df (λ r, n_digit_code 4 (code r) ∧ county_matches county r)).
Proof.
  intros Hself Hn Hc Ht Hsl.
  rewrite (two_digit_run s self df), (three_digit_run s self df),
    (four_digit_run s self df) by done.
  rewrite (by_county_run (new_loc s) (restrict df (λ r, two_digit_code (code r)))
             county _ (store_lookup _ _ _) Hc Ht Hsl).
  rewrite (by_county_run (new_loc s) (restrict df (λ r, n_digit_code 3 (code r)))
             county _ (store_lookup _ _ _) Hc Ht Hsl).
  rewrite (by_county_run (new_loc s) (restrict df (λ r, n_digit_code 4 (code r)))
             county _ (store_lookup _ _ _) Hc Ht Hsl).
  rewrite !result_frame_alloc, !restrict_restrict. done.
Qed.

(** X7 on the table with two counties, asked for ["015"]. *)
Lemma digit_with_county_witness :
  heap (one_table two_counties) !! first_loc = Some two_counties ∧
  truthy (OList [VStr "015"]) = true ∧
  (λ out, (column out "county", column out "NAICS2012"))
    <$> result_frame (two_digit first_loc (OList [VStr "015"]) (one_table two_counties))
  = Some ([VStr "015"; VStr "015"], [VStr "00"; VStr "11"]).
Proof.
  split; [apply one_table_lookup|]. split; [reflexivity|].
  destruct (digit_with_county (one_table two_counties) first_loc two_counties
              (OList [VStr "015"]) (one_table_lookup two_counties)
              sample_has_naics sample_has_county eq_refl
              (or_intror (ex_intro _ [VStr "015"] eq_refl))) as (-> & _ & _).
  reflexivity.
Defined.

(** X8.  On a table with the column [NAICS2012], a digit-level query
    raises the [TypeError] for its county exactly when the county is truthy
    and is neither a string nor a list: a non-empty set or a non-zero
    number is rejected, while [None], 0, the empty string, the empty list
    and the empty set are all taken as no county. *)
Theorem digit_type_error_iff (s : state) (self : loc) (df : DataFrame) (county : pyobj) :
  heap s !! self = Some df →
  "NAICS2012" ∈ columns df →
  ((∃ msg s', two_digit self county s = (Raise (TypeError msg), s'))
   ↔ truthy county = true ∧ ¬ str_or_list county) ∧
  ((∃ msg s', three_digit self county s = (Raise (TypeError msg), s'))
   ↔ truthy county = true ∧ ¬ str_or_list county) ∧
  ((∃ msg s', four_digit self county s = (Raise (TypeError msg), s'))
   ↔ truthy county = true ∧ ¬ str_or_list county).
Proof.
  intros Hself Hn.
  rewrite (two_digit_run s self df), (three_digit_run s self df),
    (four_digit_run s self df) by done.
  split; [apply by_county_type_error_iff|].
  split; apply by_county_type_error_iff.
Qed.

(** X8 on the sample table: the empty set passes, a set with an element
    does not. *)
Lemma digit_type_error_iff_witness :
  heap (one_table five_codes) !! first_loc = Some five_codes ∧
  (∃ msg s', three_digit first_loc (OSet [VStr "013"]) (one_table five_codes)
             = (Raise (TypeError msg), s')) ∧
  ¬ (∃ msg s', three_digit first_loc (OSet []) (one_table five_codes)
               = (Raise (TypeError msg), s')).
Proof.
  split; [apply one_table_lookup|].
  destruct (digit_type_error_iff (one_table five_codes) first_loc five_codes
              (OSet [VStr "013"]) (one_table_lookup five_codes) sample_has_naics)
    as (_ & H3 & _).
  destruct (digit_type_error_iff (one_table five_codes) first_loc five_codes
              (OSet []) (one_table_lookup five_codes) sample_has_naics)
    as (_ & H3' & _).
  split.
  - apply H3. split; [reflexivity|]. intros [[c Hc]|[l Hl]]; discriminate.
  - intros H. apply H3' in H as [Ht _]. discriminate.
Defined.

(** X9.  On a table with a county column, [get_county] with a list of one
    string does what it does with that string; two lists with the same
    elements, in any order and with any repetition, give the same result;
    and the empty list gives a table without rows (where the digit-level
    queries take the empty list as no county and keep every row of their
    level). *)
Theorem get_county_lists (s : state) (self : loc) (df : DataFrame) :
  heap s !! self = Some df →
  "county" ∈ columns df →
  (∀ c, get_county self (OList [VStr c]) s = get_county self (OStr c) s) ∧
  (∀ l l', (∀ v, v ∈ l ↔ v ∈ l') →
           get_county self (OList l) s = get_county self (OList l') s) ∧
  get_county self (OList []) s
  = (Ok (new_loc s), store s (new_loc s) {| columns := columns df; rows := [] |}).
Proof.
  intros Hself Hc.
  assert (∀ l, get_county self (OList l) s
               = (Ok (new_loc s),
                  store s (new_loc s) (restrict df (λ r, county_of r ∈ l)))) as Hlist.
  { intros l. unfold get_county.
    rewrite bind_run, (getattr_ok s self df), (getitem_mask_ok s self df) by done.
    by rewrite isin_mask. }
  split; [|split].
  - intros c. rewrite Hlist. unfold get_county, OStr.
    rewrite bind_run, (getattr_ok s self df), (getitem_mask_ok s self df) by done.
    rewrite eq_mask. do 2 f_equal. apply restrict_ext.
    intros r. rewrite elem_of_cons, elem_of_nil. tauto.
  - intros l l' Hll. rewrite !Hlist. do 2 f_equal. apply restrict_ext.
    intros r. apply Hll.
  - rewrite Hlist. do 2 f_equal. unfold restrict. f_equal.
    apply filter_none. intros r. apply not_elem_of_nil.
Qed.

(** X9 on the table with two counties. *)
Lemma get_county_lists_witness :
  heap (one_table two_counties) !! first_loc = Some two_counties ∧
  "county" ∈ columns two_counties ∧
  get_county first_loc (OList [VStr "013"]) (one_table two_counties)
  = get_county first_loc (OStr "013") (one_table two_counties) ∧
  result_frame (get_county first_loc (OList []) (one_table two_counties))
  = Some {| columns := sample_columns; rows := [] |}.
Proof.
  split; [apply one_table_lookup|]. split; [apply sample_has_county|].
  destruct (get_county_lists (one_table two_counties) first_loc two_counties
              (one_table_lookup two_counties) sample_has_county)
    as (Hone & _ & Hempty).
  split; [apply Hone|]. rewrite Hempty. reflexivity.
Defined.

(** X10.  The three digit levels share the rows of the code "00" and
    nothing else among plain codes: a row whose code is "00" is returned by
    [two_digit], [three_digit] and [four_digit] alike, and a row whose code
    is another string without '-' is returned by the query of its length
    only (by none when its length is not 2, 3 or 4). *)
Theorem digit_levels (s : state) (self : loc) (df : DataFrame) :
  heap s !! self = Some df →
  "NAICS2012" ∈ columns df →
  ∃ o2 o3 o4,
    result_frame (two_digit self ONone s) = Some o2 ∧
    result_frame (three_digit self ONone s) = Some o3 ∧
    result_frame (four_digit self ONone s) = Some o4 ∧
    (∀ r, r ∈ rows df → code r = VStr "00" →
          r ∈ rows o2 ∧ r ∈ rows o3 ∧ r ∈ rows o4) ∧
    (∀ r x, r ∈ rows df → code r = VStr x → x ≠ "00" →
            str_contains "-" x = false →
            (r ∈ rows o2 ↔ String.length x = 2%nat) ∧
            (r ∈ rows o3 ↔ String.length x = 3%nat) ∧
            (r ∈ rows o4 ↔ String.length x = 4%nat)).
Proof.
  intros Hself Hn.
  exists (restrict df (λ r, two_digit_code (code r))),
         (restrict df (λ r, n_digit_code 3 (code r))),
         (restrict df (λ r, n_digit_code 4 (code r))).
  rewrite (two_digit_run s self df), (three_digit_run s self df),
    (four_digit_run s self df) by done.
  rewrite !by_county_falsy, !result_frame_alloc by done.
  split; [done|]. split; [done|]. split; [done|]. cbn [rows restrict]. split.
  - intros r Hr H00. rewrite !list_elem_of_filter, H00. cbn.
    split; [|split]; (split; [|done]); [by left|by right..].
  - intros r x Hr Hx Hne Hdash. rewrite !list_elem_of_filter, Hx. cbn.
    rewrite Hdash. split; [|split]; split.
    all: try (intros [[?|?] _]; [done|congruence]).
    all: intros Hlen; split; [by left|done].
Qed.

(** X10 on the table with the five codes. *)
Lemma digit_levels_witness :
  heap (one_table five_codes) !! first_loc = Some five_codes ∧
  "NAICS2012" ∈ columns five_codes ∧
  ∃ o2 o3 o4,
    result_frame (two_digit first_loc ONone (one_table five_codes)) = Some o2 ∧
    result_frame (three_digit first_loc ONone (one_table five_codes)) = Some o3 ∧
    result_frame (four_digit first_loc ONone (one_table five_codes)) = Some o4 ∧
    (∀ r, r ∈ rows five_codes → code r = VStr "00" →
          r ∈ rows o2 ∧ r ∈ rows o3 ∧ r ∈ rows o4) ∧
    (∀ r x, r ∈ rows five_codes → code r = VStr x → x ≠ "00" →
            str_contains "-" x = false →
            (r ∈ rows o2 ↔ String.length x = 2%nat) ∧
            (r ∈ rows o3 ↔ String.length x = 3%nat) ∧
            (r ∈ rows o4 ↔ String.length x = 4%nat)).
Proof.
  split; [apply one_table_lookup|]. split; [apply sample_has_naics|].
  apply (digit_levels (one_table five_codes) first_loc five_codes).
  - apply one_table_lookup.
  - apply sample_has_naics.
Defined.

(** X11.  The queries read the industry code from the column [NAICS2012]
    and from no other.  On a table without that column (such as the data
    of a year of the 2007 revision, read with its own column name) every
    digit-level query raises the [AttributeError] for [NAICS2012], whatever
    the county, and [total] raises the [KeyError]; no table is built. *)
Theorem no_naics_column (s : state) (self : loc) (df : DataFrame) (county : pyobj) :
  heap s !! self = Some df →
  ("NAICS2012" ∉ columns df) →
  two_digit self county s = (Raise (AttributeError "NAICS2012"), s) ∧
  three_digit self county s = (Raise (AttributeError "NAICS2012"), s) ∧
  four_digit self county s = (Raise (AttributeError "NAICS2012"), s) ∧
  total self s = (Raise (KeyError (VStr "NAICS2012")), s).
Proof.
  intros Hself Hn. unfold two_digit, three_digit, four_digit.
  rewrite !bind_run, !(getattr_missing s self df) by done.
  rewrite (total_run s self df) by done.
  unfold groupby_sum. by rewrite decide_False.
Qed.

(** X11 on a table whose code column is [NAICS2007]. *)
Lemma no_naics_column_witness :
  heap (one_table naics2007_table) !! first_loc = Some naics2007_table ∧
  ("NAICS2012" ∉ columns naics2007_table) ∧
  two_digit first_loc ONone (one_table naics2007_table)
  = (Raise (AttributeError "NAICS2012"), one_table naics2007_table) ∧
  total first_loc (one_table naics2007_table)
  = (Raise (KeyError (VStr "NAICS2012")), one_table naics2007_table).
Proof.
  assert ("NAICS2012" ∉ columns naics2007_table) as Hn.
  { cbn. intros Hin.
    repeat (apply elem_of_cons in Hin as [Hin|Hin]; [discriminate|]).
    by apply elem_of_nil in Hin. }
  split; [apply one_table_lookup|]. split; [exact Hn|].
  destruct (no_naics_column (one_table naics2007_table) first_loc naics2007_table
              ONone (one_table_lookup naics2007_table) Hn) as (H2 & _ & _ & Ht).
  by split.
Defined.

(** X12.  A filtering query never invents, repeats or reorders rows:
    whenever [get_county] or a digit-level query returns a table, with any
    county, that table has the columns of the table it was applied to, and
    its rows are a subsequence of that table's rows, each with its index
    label and all its cells. *)
Theorem filters_keep_rows (s : state) (self : loc) (df out : DataFrame)
    (county : pyobj) :
  heap s !! self = Some df →
  result_frame (get_county self county s) = Some out ∨
  result_frame (two_digit self county s) = Some out ∨
  result_frame (three_digit self county s) = Some out ∨
  result_frame (four_digit self county s) = Some out →
  columns out = columns df ∧ rows out `sublist_of` rows df.
Proof.
  intros Hself [Hout|[Hout|[Hout|Hout]]].
  - unfold get_county in Hout.
    destruct county as [[| |]| |]; try done; by eapply county_step_frame.
  - destruct (decide ("NAICS2012" ∈ columns df)) as [Hn|Hn].
    + rewrite (two_digit_run s self df) in Hout by done. by eapply digits_frame.
    + unfold two_digit in Hout.
      by rewrite bind_run, (getattr_missing s self df) in Hout.
  - destruct (decide ("NAICS2012" ∈ columns df)) as [Hn|Hn].
    + rewrite (three_digit_run s self df) in Hout by done. by eapply digits_frame.
    + unfold three_digit in Hout.
      by rewrite bind_run, (getattr_missing s self df) in Hout.
  - destruct (decide ("NAICS2012" ∈ columns df)) as [Hn|Hn].
    + rewrite (four_digit_run s self df) in Hout by done. by eapply digits_frame.
    + unfold four_digit in Hout.
      by rewrite bind_run, (getattr_missing s self df) in Hout.
Qed.

(** X12 on the table with two counties, asked for the four-digit level of
    county "015". *)
Lemma filters_keep_rows_witness :
  heap (one_table two_counties) !! first_loc = Some two_counties ∧
  ∃ out,
    result_frame (four_digit first_loc (OStr "015") (one_table two_counties))
    = Some out ∧
    columns out = columns two_counties ∧
    rows out `sublist_of` rows two_counties.
Proof.
  split; [apply one_table_lookup|].
  destruct (result_frame (four_digit first_loc (OStr "015") (one_table two_counties)))
    as [out|] eqn:Hout; [|by vm_compute in Hout].
  exists out. split; [done|].
  apply (filters_keep_rows (one_table two_counties) first_loc two_counties out
           (OStr "015") (one_table_lookup two_counties)).
  by right; right; right.
Defined.

(** *** Further properties of [total] and of the tables of constants *)

Section TotalMore.
Implicit Types (s : state) (df : DataFrame) (self : loc).

Lemma sumZ_zero {A} (l : list A) : sumZ ((λ _, 0) <$> l) = 0.
Proof.
  induction l as [|a l IH]; [done|].
  rewrite fmap_cons. unfold sumZ in *. cbn [foldr]. by rewrite IH.
Qed.

Lemma sumZ_add {A} (f g : A → Z) (l : list A) :
  sumZ ((λ a, f a + g a) <$> l) = sumZ (f <$> l) + sumZ (g <$> l).
Proof.
  induction l as [|a l IH]; [done|].
  rewrite !fmap_cons. unfold sumZ in *. cbn [foldr]. rewrite IH. lia.
Qed.

(** Over a list without repetition, the sum of [x] at [k0] and 0 elsewhere
    is [x] when [k0] is in the list. *)
Lemma sumZ_indicator (k0 : value) (x : Z) (D : list value) :
  NoDup D →
  sumZ ((λ k, if decide (k0 = k) then x else 0) <$> D)
  = if decide (k0 ∈ D) then x else 0.
Proof.
  induction D as [|k D IH]; intros Hnd; [done|].
  apply NoDup_cons in Hnd as [Hk Hnd].
  rewrite fmap_cons. unfold sumZ in *. cbn [foldr]. rewrite IH by done.
  destruct (decide (k0 = k)) as [->|Hne].
  - rewrite decide_False by done. rewrite decide_True by left. lia.
  - destruct (decide (k0 ∈ D)) as [Hin|Hin].
    + rewrite decide_True by (by right). lia.
    + rewrite decide_False; [lia|]. intros [?|?]%elem_of_cons; done.
Qed.

Lemma sum_over_cons c r (g : list (value * gmap string value)) :
  sum_over c (r :: g) = cell_int c r + sum_over c g.
Proof. done. Qed.

(** The sums of the groups add up to the sum over the rows that have a
    key. *)
Lemma sum_groups c by_ (D : list value) (l : list (value * gmap string value)) :
  NoDup D → (VNone ∉ D) →
  (∀ r, r ∈ l → cell by_ r ≠ VNone → cell by_ r ∈ D) →
  sumZ ((λ k, sum_over c (filter (λ r, cell by_ r = k) l)) <$> D)
  = sum_over c (filter (λ r, cell by_ r ≠ VNone) l).
Proof.
  intros Hnd Hnone. induction l as [|r l IH]; intros Hall.
  - apply sumZ_zero.
  - rewrite <- (list_fmap_ext
                  (λ k, (if decide (cell by_ r = k) then cell_int c r else 0)
                        + sum_over c (filter (λ r, cell by_ r = k) l)) _ D).
    2: { intros i k _. rewrite filter_cons.
         destruct (decide (cell by_ r = k)); [by rewrite sum_over_cons|lia]. }
    rewrite sumZ_add, sumZ_indicator by done.
    rewrite IH by (intros r' Hr'; apply Hall; by right).
    rewrite filter_cons.
    destruct (decide (cell by_ r ≠ VNone)) as [Hk|Hk].
    + rewrite decide_True by (apply Hall; [left|done]). by rewrite sum_over_cons.
    + rewrite decide_False; [lia|]. intros Hin. apply Hk. intros Heq.
      by rewrite Heq in Hin.
Qed.

Lemma value_leb_total : Total (λ a b : value, Is_true (value_leb a b)).
Proof.
  intros [|x|x] [|y|y]; cbn; try (by left); try (by right).
  - destruct (String.leb_total x y) as [->| ->]; [by left|by right].
  - destruct (Z.leb_spec x y); [by left|].
    right. apply Is_true_true, Z.leb_le. lia.
Qed.

Lemma fst_keyed {B} (f : value → B) (l : list value) :
  ((λ k, (k, f k)) <$> l).*1 = l.
Proof. rewrite <- list_fmap_compose. by rewrite <- (list_fmap_id l) at 2. Qed.

End TotalMore.

(** X13.  The totals add up.  For a table whose [EMP] and [ESTAB] columns
    hold 64-bit integers and whose sums per industry code are in the range
    of a 64-bit integer, the employment summed over the rows that [total]
    returns equals the employment summed over the rows of the table that
    have an industry code, and likewise for the establishments: no row with
    a code is lost or counted twice. *)
Theorem total_conserves (s : state) (self : loc) (df : DataFrame) :
  heap s !! self = Some df →
  "NAICS2012" ∈ columns df → "EMP" ∈ columns df → "ESTAB" ∈ columns df →
  counts_are_int64 df →
  sums_fit df →
  ∃ out,
    result_frame (total self s) = Some out ∧
    sum_over "EMP" (rows out)
    = sum_over "EMP" (filter (λ r, code r ≠ VNone) (rows df)) ∧
    sum_over "ESTAB" (rows out)
    = sum_over "ESTAB" (filter (λ r, code r ≠ VNone) (rows df)).
Proof.
  intros Hself Hn He Hb Hint Hfit.
  eexists. split.
  { rewrite (total_run s self df), groupby_sum_counts
      by auto using counts_are_int64_int.
    apply result_frame_alloc. }
  cbn [rows].
  assert (∀ r, r ∈ rows df → cell "NAICS2012" r ≠ VNone →
               cell "NAICS2012" r ∈ group_keys df "NAICS2012") as Hkeys.
  { intros r Hr Hk. apply elem_of_group_keys. split; [done|].
    apply elem_of_column. eauto. }
  assert (VNone ∉ group_keys df "NAICS2012") as Hnone.
  { intros Hin. by apply elem_of_group_keys in Hin as [? _]. }
  split.
  - rewrite <- (sum_groups "EMP" "NAICS2012" (group_keys df "NAICS2012"))
      by (done || apply NoDup_group_keys).
    unfold sum_over at 1. rewrite <- list_fmap_compose. unfold sumZ. f_equal.
    apply list_fmap_ext. intros i k Hk.
    apply list_elem_of_lookup_2, elem_of_group_keys in Hk as [_ Hk].
    destruct (Hfit k Hk) as [Hemp _].
    exact (wrap64_int64 _ Hemp).
  - rewrite <- (sum_groups "ESTAB" "NAICS2012" (group_keys df "NAICS2012"))
      by (done || apply NoDup_group_keys).
    unfold sum_over at 1. rewrite <- list_fmap_compose. unfold sumZ. f_equal.
    apply list_fmap_ext. intros i k Hk.
    apply list_elem_of_lookup_2, elem_of_group_keys in Hk as [_ Hk].
    destruct (Hfit k Hk) as [_ Hestab].
    exact (wrap64_int64 _ Hestab).
Qed.

(** X13 on the table with two counties: 182 employees and 21
    establishments, in the table and in its totals. *)
Lemma total_conserves_witness :
  heap (one_table two_counties) !! first_loc = Some two_counties ∧
  counts_are_int64 two_counties ∧
  sums_fit two_counties ∧
  sum_over "EMP" (rows two_counties) = 182 ∧
  sum_over "ESTAB" (rows two_counties) = 21 ∧
  ∃ out,
    result_frame (total first_loc (one_table two_counties)) = Some out ∧
    sum_over "EMP" (rows out)
    = sum_over "EMP" (filter (λ r, code r ≠ VNone) (rows two_counties)) ∧
    sum_over "ESTAB" (rows out)
    = sum_over "ESTAB" (filter (λ r, code r ≠ VNone) (rows two_counties)).
Proof.
  assert (counts_are_int64 two_counties) as Hint.
  { intros r Hr. unfold two_counties in Hr. cbn [rows] in Hr.
    repeat (apply elem_of_cons in Hr as [->|Hr]);
      [| | | |by apply elem_of_nil in Hr];
      eexists _, _; (split; [reflexivity|]); (split; [reflexivity|]);
      split; by vm_compute. }
  assert (sums_fit two_counties) as Hfit.
  { intros k Hk. unfold two_counties in Hk. cbn in Hk.
    repeat (apply elem_of_cons in Hk as [->|Hk]);
      [| | | |by apply elem_of_nil in Hk]; split; by vm_compute. }
  split; [apply one_table_lookup|]. split; [exact Hint|]. split; [exact Hfit|].
  split; [reflexivity|]. split; [reflexivity|].
  apply (total_conserves (one_table two_counties) first_loc two_counties
           (one_table_lookup two_counties)); [| | |exact Hint|exact Hfit].
  all: unfold two_counties, sample_columns; cbn [columns]; in_list.
Defined.

(** X14.  The rows that [total] returns are in the order of their codes
    (numbers before strings, strings in lexicographic order), and there
    are at most as many of them as the table has rows; a table without
    rows has no totals. *)
Theorem total_sorted (s : state) (self : loc) (df : DataFrame) :
  heap s !! self = Some df →
  "NAICS2012" ∈ columns df → "EMP" ∈ columns df → "ESTAB" ∈ columns df →
  counts_are_int df →
  ∃ out,
    result_frame (total self s) = Some out ∧
    Sorted (λ a b, Is_true (value_leb a b)) (rows out).*1 ∧
    (length (rows out) ≤ length (rows df))%nat ∧
    (rows df = [] → rows out = []).
Proof.
  intros Hself Hn He Hb Hint.
  eexists. split.
  { rewrite (total_run s self df), groupby_sum_counts by done.
    apply result_frame_alloc. }
  cbn [rows]. rewrite fst_keyed, length_fmap.
  assert (length (group_keys df "NAICS2012") ≤ length (rows df))%nat as Hlen.
  { rewrite <- (length_fmap (cell "NAICS2012") (rows df)).
    apply submseteq_length, NoDup_submseteq; [apply NoDup_group_keys|].
    intros k Hk. by apply elem_of_group_keys in Hk as [_ ?]. }
  split; [|split; [done|]].
  - unfold group_keys. apply Sorted_merge_sort, value_leb_total.
  - intros Hempty. rewrite Hempty in Hlen. cbn in Hlen.
    destruct (group_keys df "NAICS2012"); [done|cbn in Hlen; lia].
Qed.

(** X14 on the table with two counties. *)
Lemma total_sorted_witness :
  heap (one_table two_counties) !! first_loc = Some two_counties ∧
  counts_are_int two_counties ∧
  ∃ out,
    result_frame (total first_loc (one_table two_counties)) = Some out ∧
    Sorted (λ a b, Is_true (value_leb a b)) (rows out).*1 ∧
    (length (rows out) ≤ length (rows two_counties))%nat ∧
    (rows two_counties = [] → rows out = []).
Proof.
  assert (counts_are_int two_counties) as Hint.
  { intros r Hr. unfold two_counties in Hr. cbn [rows] in Hr.
    repeat (apply elem_of_cons in Hr as [->|Hr]);
      [| | | |by apply elem_of_nil in Hr]; eexists _, _; split; reflexivity. }
  split; [apply one_table_lookup|]. split; [exact Hint|].
  apply (total_sorted (one_table two_counties) first_loc two_counties
           (one_table_lookup two_counties)); [| | |exact Hint].
  all: unfold two_counties, sample_columns; cbn [columns]; in_list.
Defined.

(** X15.  [naics_year] has an entry for the years 2008 to 2014 and for no
    other year: looking up any other year finds nothing. *)
Theorem naics_year_domain (y : Z) :
  naics_year !! y = None ↔ y < 2008 ∨ 2014 < y.
Proof.
  split.
  - intros Hnone.
    destruct (decide (2008 ≤ y ≤ 2014)) as [Hy|Hy]; [|lia].
    assert (y = 2008 ∨ y = 2009 ∨ y = 2010 ∨ y = 2011 ∨ y = 2012 ∨ y = 2013 ∨ y = 2014)
      as Hcases by lia.
    repeat (destruct Hcases as [->|Hcases]; [by vm_compute in Hnone|]).
    subst. by vm_compute in Hnone.
  - intros Hy. unfold naics_year. apply not_elem_of_list_to_map_1. cbn.
    intros Hin.
    repeat (apply elem_of_cons in Hin as [->|Hin]; [lia|]).
    by apply elem_of_nil in Hin.
Qed.

(** *** When imputation makes no difference *)

Section Unflagged.
Implicit Types (w : world) (a : args) (s : state) (df : DataFrame).

Lemma mapR_ext_ok {A B} (f : A → result B) (g : A → B) (l : list A) :
  (∀ x, x ∈ l → f x = Ok (g x)) → mapR f l = Ok (g <$> l).
Proof.
  induction l as [|x l IH]; intros Hf; [done|].
  rewrite fmap_cons. cbn [mapR].
  rewrite Hf by left. rewrite IH; [done|]. intros y Hy. apply Hf. by right.
Qed.

Lemma setitem_same df c :
  c ∈ columns df →
  (∀ r, r ∈ rows df → is_Some (r.2 !! c)) →
  setitem df c (column df c) = df.
Proof.
  intros Hc Hsome. unfold setitem, column. rewrite decide_True by done.
  destruct df as [cols rs]. cbn [columns rows] in *. f_equal.
  induction rs as [|r rs IH]; [done|].
  rewrite fmap_cons. cbn [zip_with]. rewrite IH by (intros; apply Hsome; by right).
  f_equal. destruct (Hsome r) as [x Hx]; [left|].
  destruct r as [i m]. cbn [fst snd] in *. unfold cell. cbn [snd].
  rewrite Hx. cbn. by rewrite insert_id.
Qed.

Lemma cast_columns_has_emp df df1 :
  cast_columns df cbp_dtypes_keys = Ok df1 →
  ∀ r1, r1 ∈ rows df1 → is_Some (r1.2 !! "EMP").
Proof.
  unfold cbp_dtypes_keys. cbn [cast_columns]. intros H.
  destruct (cast_column df "ESTAB") as [dfa|] eqn:Ha; [|done]. cbn in H.
  destruct (cast_column dfa "EMP") as [dfb|] eqn:Hb; [|done]. cbn in H.
  injection H as <-.
  apply cast_column_ok in Hb as (_ & _ & Hlen & Hrows).
  intros r1 Hr1. apply list_elem_of_lookup in Hr1 as [i Hi].
  destruct (lookup_lt_is_Some_2 (rows dfa) i) as [ra Hra].
  { rewrite <- Hlen. by eapply lookup_lt_Some. }
  destruct (Hrows i ra Hra) as (z & _ & Hi'). rewrite Hi in Hi'.
  injection Hi' as ->. cbn [snd]. rewrite lookup_insert_eq. eauto.
Qed.

(** Without flags, imputation leaves the converted table as it is. *)
Lemma impute_unflagged header data df1 :
  "EMP_F" ∈ header →
  no_flags header data →
  cast_columns (of_table header data) cbp_dtypes_keys = Ok df1 →
  apply_rows (impute df1) df1 = Ok (column df1 "EMP") ∧
  setitem df1 "EMP" (column df1 "EMP") = df1.
Proof.
  intros Hf Hnone Hcast.
  pose proof (cast_columns_has_emp _ _ Hcast) as Hemp.
  apply cast_columns_ok in Hcast as (He & _ & Hcols & Hlen & Hrows).
  cbn [columns of_table] in He, Hcols.
  split; [|apply setitem_same; [by rewrite Hcols|done]].
  unfold apply_rows, column. apply mapR_ext_ok.
  intros r1 Hr1. apply list_elem_of_lookup in Hr1 as [i Hi1].
  destruct (lookup_lt_is_Some_2 (rows (of_table header data)) i) as [r Hr].
  { rewrite <- Hlen. by eapply lookup_lt_Some. }
  pose proof Hr as Hr0. unfold of_table in Hr0. cbn [rows] in Hr0.
  rewrite list_lookup_imap in Hr0.
  destruct (data !! i) as [vs|] eqn:Hvs; [|done]. injection Hr0 as <-.
  destruct (Hrows _ _ Hr) as (e & b & r1' & _ & _ & Hi1' & _ & _ & _ & Hother).
  rewrite Hi1 in Hi1'. injection Hi1' as <-.
  unfold impute, row_getattr. rewrite !decide_True by (by rewrite Hcols).
  cbn. rewrite (Hother "EMP_F") by done. by rewrite (Hnone i vs Hvs).
Qed.

End Unflagged.

(** X16.  Imputation matters for flagged rows only.  When the response
    has the column [EMP_F] and no row carries a flag, the constructor does
    the same with imputation enabled as with imputation disabled: the same
    result, the same table, the same trace.  (In CSV mode, and when the
    constructor fails before the response is converted, the two agree as
    well.)

    The statement is for a response that is read as sent (distinct labels,
    every row complete and holding a text: in a row in which every cell
    reads as a number, the reader turns a missing flag into a number that
    counts as a flag) and that has at least one row. *)
Theorem impute_irrelevant_without_flags (w : world) (a : args) (s : state) :
  (∀ header data, http w (url_of a) = HttpOk header data →
                  "EMP_F" ∈ header ∧ no_flags header data ∧
                  read_as_sent header data ∧ data ≠ []) →
  __init__ w (with_impute true a) s = __init__ w (with_impute false a) s.
Proof.
  intros Hresp. unfold __init__. cbn [read_from key filepath impute_emp with_impute].
  change (url_of (with_impute true a)) with (url_of a).
  change (url_of (with_impute false a)) with (url_of a).
  destruct (String.eqb (read_from a) "api"); [|done].
  destruct (negb (truthy_opt_str (key a))); [done|].
  rewrite !bind_run, requests_get_run.
  destruct (http w (url_of a)) as [err|header data] eqn:Hhttp; [done|].
  destruct (Hresp header data eq_refl) as (Hf & Hnone & _).
  change (after_request (with_impute true a) (header, data)
            (after_event s (EvGet (url_of a)))
          = after_request (with_impute false a) (header, data)
              (after_event s (EvGet (url_of a)))).
  unfold after_request, read_json. cbn [fst snd impute_emp with_impute].
  rewrite !(bind_run (lift (cast_columns (of_table header data) cbp_dtypes_keys))).
  unfold lift at 1 3.
  destruct (cast_columns (of_table header data) cbp_dtypes_keys) as [df1|] eqn:Hcast;
    [|done].
  destruct (impute_unflagged header data df1 Hf Hnone Hcast) as [Happly Hset].
  rewrite !bind_run. unfold lift at 1. rewrite Happly. cbn [mret M_ret].
  by rewrite Hset.
Qed.

(** X16 on a response without flags. *)
Lemma impute_irrelevant_without_flags_witness :
  "EMP_F" ∈ sample_header ∧
  no_flags sample_header unflagged_data ∧
  read_as_sent sample_header unflagged_data ∧
  unflagged_data ≠ [] ∧
  __init__ (api_world unflagged_data) (with_impute true sample_args) empty_state
  = __init__ (api_world unflagged_data) (with_impute false sample_args) empty_state.
Proof.
  assert ("EMP_F" ∈ sample_header) as Hf by (unfold sample_header; in_list).
  assert (no_flags sample_header unflagged_data) as Hnone.
  { intros i vs Hi. unfold unflagged_data in Hi.
    destruct i as [|[|i]]; cbn in Hi; [| |done]; by injection Hi as <-. }
  assert (read_as_sent sample_header unflagged_data) as Hsent.
  { split; [apply (bool_decide_unpack _); by vm_compute|].
    unfold unflagged_data. repeat constructor. }
  split; [exact Hf|]. split; [exact Hnone|]. split; [exact Hsent|].
  split; [discriminate|].
  apply (impute_irrelevant_without_flags (api_world unflagged_data) sample_args
           empty_state).
  intros header data [= <- <-]. split; [exact Hf|]. split; [exact Hnone|].
  split; [exact Hsent|discriminate].
Defined.

(** *** The string functions on examples *)

Example int_of_str_ex1 : int_of_str " 42 " = Some 42. Proof. reflexivity. Qed.
Example int_of_str_ex2 : int_of_str "-7" = Some (-7). Proof. reflexivity. Qed.
Example int_of_str_ex3 : int_of_str "" = None. Proof. reflexivity. Qed.
Example int_of_str_ex4 : int_of_str "1 2" = None. Proof. reflexivity. Qed.
Example int_of_str_ex5 : int_of_str "12.0" = None. Proof. reflexivity. Qed.
Example py_str_ex : py_str (VInt 2014) = "2014". Proof. reflexivity. Qed.
Example str_contains_ex : str_contains "-" "31-33" = true. Proof. reflexivity. Qed.
Example str_contains_ex2 : str_contains "-" "3133" = false. Proof. reflexivity. Qed.
Example text_cell_ex1 : text_cell (VStr "Agriculture") = true. Proof. reflexivity. Qed.
Example text_cell_ex2 : text_cell (VStr "003") = false. Proof. reflexivity. Qed.
Example text_cell_ex3 : text_cell (VStr "-1.5e3") = false. Proof. reflexivity. Qed.
Example text_cell_ex4 : text_cell (VStr "Infinity") = false. Proof. reflexivity. Qed.
Example text_cell_ex5 : text_cell VNone = false. Proof. reflexivity. Qed.
Example wrap64_ex1 : wrap64 (2 ^ 63) = - 2 ^ 63. Proof. reflexivity. Qed.
Example wrap64_ex2 : wrap64 (2 ^ 63 - 1) = 2 ^ 63 - 1. Proof. reflexivity. Qed.
